(** * Academy backend: submission pipeline and progress ledger

    A shallow embedding of the exercise-submission pipeline
    (apps/portfolio/views.py), the similarity fallback of the AI grader
    (apps/portfolio/services/gemini_service.py), the sandbox client
    (apps/portfolio/services/judge0_service.py) and the progress ledger
    (apps/portfolio/models.py), with the properties the specification
    states about them and further properties read off the code.

    Conventions.
    - A Python [str] is a [string]; its characters stand for ASCII text.
      Case conversion and whitespace classification follow Python on code
      points below 128 and leave every other character alone.
    - A Python [int] is a [Z].
    - A many-to-many relation (completed videos, exercises, course items)
      is a [gset] of primary keys.
    - A call to an external service (sandbox, language-model oracle) is a
      function taken from an environment record; [None] stands for a
      raised exception.
    - The result dictionaries of the validators carry constant texts; the
      embedding keeps [is_correct] and names each text by a constructor of
      [Message]. *)

From Stdlib Require Import ZArith QArith List Ascii String Bool Lia.
From Stdlib Require Import Floats.SpecFloat.
From stdpp Require Import base gmap strings.

Import ListNotations.
Local Open Scope string_scope.
Local Open Scope list_scope.

(* ===================================================================== *)
(** * Python string primitives *)
(* ===================================================================== *)

Module PyStr.

Definition code (c : ascii) : nat := nat_of_ascii c.

(** [str.isspace] on one character: tab, line feed, vertical tab, form
    feed, carriage return, the four separators 28..31 and the space. *)
Definition is_space (c : ascii) : bool :=
  let n := code c in
  ((9 <=? n) && (n <=? 13) || (28 <=? n) && (n <=? 32))%nat.

Definition is_upper (c : ascii) : bool :=
  let n := code c in ((65 <=? n) && (n <=? 90))%nat.

Definition is_lower (c : ascii) : bool :=
  let n := code c in ((97 <=? n) && (n <=? 122))%nat.

Definition is_digit (c : ascii) : bool :=
  let n := code c in ((48 <=? n) && (n <=? 57))%nat.

(** The class [\w] of the [re] module on ASCII text. *)
Definition is_word (c : ascii) : bool :=
  is_upper c || is_lower c || is_digit c || (code c =? 95)%nat.

Definition lower_char (c : ascii) : ascii :=
  if is_upper c then ascii_of_nat (code c + 32) else c.

Definition upper_char (c : ascii) : ascii :=
  if is_lower c then ascii_of_nat (code c - 32) else c.

Fixpoint map_chars (f : ascii -> ascii) (s : string) : string :=
  match s with
  | EmptyString => EmptyString
  | String c t => String (f c) (map_chars f t)
  end.

(** [s.lower()] and [s.upper()]. *)
Definition lower (s : string) : string := map_chars lower_char s.
Definition upper (s : string) : string := map_chars upper_char s.

(** [len(s)]. *)
Definition len (s : string) : nat := String.length s.

(** Truth value of a string: non-empty. *)
Definition truthy (s : string) : bool :=
  match s with EmptyString => false | String _ _ => true end.

Fixpoint lstrip (s : string) : string :=
  match s with
  | EmptyString => EmptyString
  | String c t => if is_space c then lstrip t else s
  end.

(** Drops trailing whitespace: a character is kept when it is not a
    space or when something is kept after it. *)
Fixpoint rstrip (s : string) : string :=
  match s with
  | EmptyString => EmptyString
  | String c t =>
      match rstrip t with
      | EmptyString => if is_space c then EmptyString else String c EmptyString
      | String _ _ as t' => String c t'
      end
  end.

(** [s.strip()]. *)
Definition strip (s : string) : string := rstrip (lstrip s).

(** [s.startswith(p)]. *)
Definition startswith (s p : string) : bool := String.prefix p s.

(** [needle in hay]. *)
Fixpoint contains (needle hay : string) : bool :=
  String.prefix needle hay ||
  match hay with
  | EmptyString => false
  | String _ t => contains needle t
  end.

(** [any(kw in s for kw in kws)]. *)
Definition any_in (kws : list string) (s : string) : bool :=
  existsb (fun kw => contains kw s) kws.

(** [s.split(sep)] for a one-character separator: the pieces between
    the separators, empty pieces included; never an empty list. *)
Fixpoint split_on (sep : ascii) (s : string) : list string :=
  match s with
  | EmptyString => [EmptyString]
  | String c t =>
      if Ascii.eqb c sep then EmptyString :: split_on sep t
      else match split_on sep t with
           | [] => [String c EmptyString]
           | w :: ws => String c w :: ws
           end
  end.

Definition newline : ascii := ascii_of_nat 10.

(** [s.split()]: the maximal runs of non-whitespace characters.  The
    accumulator [cur] is the run being read. *)
Fixpoint split_ws_aux (cur : string) (s : string) : list string :=
  match s with
  | EmptyString => if truthy cur then [cur] else []
  | String c t =>
      if is_space c
      then (if truthy cur then cur :: split_ws_aux EmptyString t
            else split_ws_aux EmptyString t)
      else split_ws_aux (cur ++ String c EmptyString) t
  end.

Definition split_ws (s : string) : list string := split_ws_aux EmptyString s.

(** [''.join(parts)]. *)
Definition join_empty (parts : list string) : string :=
  fold_right String.append EmptyString parts.

(** [s[:n]]. *)
Fixpoint take (n : nat) (s : string) : string :=
  match n, s with
  | O, _ => EmptyString
  | _, EmptyString => EmptyString
  | S n', String c t => String c (take n' t)
  end.

(** [zip(a, b)]. *)
Fixpoint zip (a b : string) : list (ascii * ascii) :=
  match a, b with
  | String x a', String y b' => (x, y) :: zip a' b'
  | _, _ => []
  end.

(** [sum(1 for a, b in zip(s, t) if a == b)]. *)
Definition count_equal (s t : string) : nat :=
  List.length (List.filter (fun p => Ascii.eqb (fst p) (snd p)) (zip s t)).

(** The one-line program [print("Hello, World!")]. *)
Definition double_quote : string := String (ascii_of_nat 34) EmptyString.

Definition print_hello : string :=
  "print(" ++ double_quote ++ "Hello, World!" ++ double_quote ++ ")".

(** Spec-side reading of "all whitespace removed". *)
Fixpoint remove_spaces (s : string) : string :=
  match s with
  | EmptyString => EmptyString
  | String c t => if is_space c then remove_spaces t else String c (remove_spaces t)
  end.

End PyStr.

(* ===================================================================== *)
(** * The AI grader's local similarity fallback (gemini_service.py) *)
(* ===================================================================== *)

Module GeminiService.
Import PyStr.

(** The [reasoning] text of a fallback verdict. *)
Inductive Reasoning :=
| CodeLengthInsufficient            (* 'Code length insufficient' *)
| Similarity (ratio : Q)            (* f'Similarity: {similarity:.2f}' *)
| SimilarityTooLow (ratio : Q).     (* f'Similarity too low: {similarity:.2f}' *)

Record Verdict := mkVerdict {
  is_correct : bool;
  accepts_alternative : bool;
  reasoning : Reasoning
}.

(** [_calculate_similarity].  Python divides in double precision; the
    quotient is kept exact here. *)
Definition _calculate_similarity (text1 text2 : string) : Q :=
  if negb (truthy text1) || negb (truthy text2) then 0%Q
  else
    let common := count_equal text1 text2 in
    let max_len := Nat.max (len text1) (len text2) in
    if (0 <? max_len)%nat
    then (inject_Z (Z.of_nat common) / inject_Z (Z.of_nat max_len))%Q
    else 0%Q.

(** [x > y] on rationals. *)
Definition Qgtb (x y : Q) : bool := negb (Qle_bool x y).

(** [''.join(code.split()).lower()]. *)
Definition clean (code : string) : string := lower (join_empty (split_ws code)).

(** [_basic_validation]; the argument [execution_output] is unused by
    the source and left out. *)
Definition _basic_validation (submitted_code solution_code : string) : Verdict :=
  let submitted_clean := clean submitted_code in
  let solution_clean := clean solution_code in
  if (len submitted_clean <? 10)%nat then
    mkVerdict false false CodeLengthInsufficient
  else
    let similarity := _calculate_similarity submitted_clean solution_clean in
    if Qgtb similarity (7 # 10) then
      mkVerdict true true (Similarity similarity)
    else
      mkVerdict false false (SimilarityTooLow similarity).

End GeminiService.


(* ===================================================================== *)
(** * Double-precision arithmetic of the percentage computation *)
(* ===================================================================== *)

Module PyFloat.

(** IEEE 754 binary64, rounding to nearest even, as Python's [float]. *)
Definition prec : Z := 53.
Definition emax : Z := 1024.

(** [float(n)]. *)
Definition of_int (n : Z) : spec_float := binary_normalize prec emax n 0 false.

(** [a / b] on two [int]s, for operands below 2^53 in absolute value
    (both are then exact doubles and the quotient is rounded once);
    [None] is [ZeroDivisionError]. *)
Definition truediv (a b : Z) : option spec_float :=
  if (b =? 0)%Z then None else Some (SFdiv prec emax (of_int a) (of_int b)).

(** [x * n] for a float [x] and an int [n]. *)
Definition mul_int (x : spec_float) (n : Z) : spec_float :=
  SFmul prec emax x (of_int n).

(** [int(x)]: truncation toward zero; [None] on an infinity or a NaN,
    where Python raises. *)
Definition to_int (x : spec_float) : option Z :=
  match x with
  | S754_zero _ => Some 0%Z
  | S754_finite s m e =>
      let q := match e with
               | Z0 => Zpos m
               | Zpos p => (Zpos m * 2 ^ Zpos p)%Z
               | Zneg p => (Zpos m / 2 ^ Zpos p)%Z
               end in
      Some (if s then (- q)%Z else q)
  | S754_infinity _ | S754_nan => None
  end.

End PyFloat.

(* ===================================================================== *)
(** * The progress ledger (models.py) *)
(* ===================================================================== *)

Module Models.

(** [UserProgress]: one row per user.  Dates are day ordinals. *)
Record UserProgress := mkUserProgress {
  completed_videos : gset nat;
  completed_exercises : gset nat;
  xp : Z;
  level : Z;
  total_points : Z;
  streak_days : Z;
  last_activity_date : option Z
}.

(** The row [get_or_create] inserts: the field defaults of the model. *)
Definition new_progress : UserProgress :=
  mkUserProgress ∅ ∅ 0 1 0 0 None.

Definition level_thresholds : list Z :=
  [0; 100; 300; 700; 1500; 3000; 6000; 10000]%Z.

(** [enumerate(l, start)]. *)
Fixpoint enumerate {A : Type} (start : Z) (l : list A) : list (Z * A) :=
  match l with
  | [] => []
  | x :: r => (start, x) :: enumerate (start + 1)%Z r
  end.

(** The loop of [add_xp]: every threshold that is met overwrites the
    level with its index. *)
Definition level_loop (thresholds : list Z) (xp0 level0 : Z) : Z :=
  fold_left
    (fun lvl (p : Z * Z) => let (level, threshold) := p in
                            if (xp0 >=? threshold)%Z then level else lvl)
    (enumerate 1%Z thresholds) level0.

(** [UserProgress.add_xp]: the saved row and the returned level. *)
Definition add_xp (self : UserProgress) (points : Z) : UserProgress * Z :=
  let xp' := (xp self + points)%Z in
  let total' := (total_points self + points)%Z in
  let level' := level_loop level_thresholds xp' (level self) in
  (mkUserProgress (completed_videos self) (completed_exercises self)
                  xp' level' total' (streak_days self) (last_activity_date self),
   level').

(** [UserProgress.check_streak], with [date.today()] as an argument. *)
Definition check_streak (today : Z) (self : UserProgress) : UserProgress :=
  let streak' :=
    match last_activity_date self with
    | Some last =>
        let delta := (today - last)%Z in
        if (delta =? 1)%Z then (streak_days self + 1)%Z
        else if (delta >? 1)%Z then 1%Z
        else streak_days self
    | None => 1%Z
    end in
  mkUserProgress (completed_videos self) (completed_exercises self)
                 (xp self) (level self) (total_points self)
                 streak' (Some today).

(** [Course]: the primary keys of its items. *)
Record Course := mkCourse { items : gset nat }.

(** [Course.get_total_items]. *)
Definition get_total_items (c : Course) : Z := Z.of_nat (size (items c)).

(** [UserCourseProgress]; timestamps are integers. *)
Record UserCourseProgress := mkUserCourseProgress {
  course : Course;
  current_item : option nat;
  completed_items : gset nat;
  is_started : bool;
  is_completed : bool;
  completion_percentage : Z;
  started_at : option Z;
  completed_at : option Z
}.

(** [int((completed_count / total_items) * 100)]. *)
Definition percentage (completed_count total_items : Z) : option Z :=
  match PyFloat.truediv completed_count total_items with
  | Some q => PyFloat.to_int (PyFloat.mul_int q 100)
  | None => None
  end.

(** [UserCourseProgress.calculate_progress], with [timezone.now()] as an
    argument: the saved row and the returned percentage; [None] when the
    conversion to [int] raises. *)
Definition calculate_progress (now : Z) (self : UserCourseProgress)
  : option (UserCourseProgress * Z) :=
  let total_items := get_total_items (course self) in
  if (total_items =? 0)%Z then
    Some (mkUserCourseProgress (course self) (current_item self)
            (completed_items self) (is_started self) (is_completed self)
            0%Z (started_at self) (completed_at self), 0%Z)
  else
    let completed_count := Z.of_nat (size (completed_items self)) in
    match percentage completed_count total_items with
    | None => None
    | Some pct =>
        if (pct =? 100)%Z && negb (is_completed self) then
          Some (mkUserCourseProgress (course self) (current_item self)
                  (completed_items self) (is_started self) true
                  pct (started_at self) (Some now), pct)
        else
          Some (mkUserCourseProgress (course self) (current_item self)
                  (completed_items self) (is_started self) (is_completed self)
                  pct (started_at self) (completed_at self), pct)
    end.

End Models.

(* ===================================================================== *)
(** * The submission pipeline (views.py) *)
(* ===================================================================== *)

Module Views.
Import PyStr.

(** [AcademyExercise], the fields the pipeline reads. *)
Record Exercise := mkExercise {
  id : nat;
  language : string;
  difficulty : string;
  instructions : string;
  solution_code : string
}.

(** The texts of the result dictionaries, one constructor per [return]. *)
Inductive Message :=
(* _validate_with_ai_and_execution, _validate_solution_intelligent *)
| CodeTropCourt
| ErreurExecution (feedback : string)
| ErreurCompilation (feedback : string)
| AIEvaluation (feedback hint reasoning : string) (ai_score : Z)
(* submit, on an exercise completed before *)
| DejaCompleteCorrecte | DejaCompleteIncorrecte
(* _validate_html_css *)
| HtmlTousPresents | HtmlApprocheDifferente | HtmlElementsManquants
(* _validate_python *)
| PyTropCourt | PyFonctionRequise | PyBoucleRequise | PyConditionRequise
| PyAffichageRequis | PyValide | PyIncomplete
(* _validate_javascript *)
| JsFonctionRequise | JsBoucleRequise | JsConditionRequise | JsTropCourt
| JsValide (uses_browser_apis : bool) | JsIncomplete
(* _validate_cpp *)
| CppTropCourt | CppHeadersRequis | CppMainRequis | CppAffichageRequis
| CppBoucleRequise | CppValide | CppIncomplete
(* _validate_java *)
| JavaTropCourt | JavaClasseRequise | JavaMainRequis | JavaAffichageRequis
| JavaBoucleRequise | JavaValide | JavaIncomplete
(* _validate_c *)
| CTropCourt | CHeadersRequis | CMainRequis | CAffichageRequis
| CBoucleRequise | CValide | CIncomplete
(* _validate_sql *)
| SqlRequeteRequise | SqlSelectRequis | SqlFromRequis | SqlWhereRequis
| SqlJoinRequis | SqlValide | SqlIncomplete
(* _validate_generic *)
| GenTropCourt | GenAcceptee | GenProche (similarity : Q) | GenEssayezEncore.

Record Result := mkResult { is_correct : bool; message : Message }.

Definition accept (m : Message) : Result := mkResult true m.
Definition reject (m : Message) : Result := mkResult false m.

(** [x in xs] for a list of strings. *)
Definition in_list (x : string) (xs : list string) : bool :=
  existsb (String.eqb x) xs.

(** [[line for line in code.strip().split('\n')
      if line.strip() and not line.strip().startswith(marker)]]. *)
Definition code_lines (marker : string) (code : string) : list string :=
  List.filter
    (fun line => truthy (strip line) && negb (startswith (strip line) marker))
    (split_on newline (strip code)).

(** The longest run of word characters at the head of [s]. *)
Fixpoint take_word (s : string) : string :=
  match s with
  | EmptyString => EmptyString
  | String c t => if is_word c then String c (take_word t) else EmptyString
  end.

(** [re.findall(r'<(\w+)', s)].  A match ends on a non-word character,
    and no word character is [<], so resuming the scan right after the
    [<] finds the same matches as resuming after the match. *)
Fixpoint findall_tags (s : string) : list string :=
  match s with
  | EmptyString => []
  | String c t =>
      if Ascii.eqb c "<"%char
      then (if truthy (take_word t) then take_word t :: findall_tags t
            else findall_tags t)
      else findall_tags t
  end.

Definition tag_set (s : string) : gset string := list_to_set (findall_tags s).

(** [_validate_html_css]. *)
Definition _validate_html_css (exercise : Exercise) (code : string) : Result :=
  let code_lower := lower code in
  let solution_lower := lower (solution_code exercise) in
  let solution_tags := tag_set solution_lower in
  let submitted_tags := tag_set code_lower in
  let missing_tags := solution_tags ∖ submitted_tags in
  if (size missing_tags =? 0)%nat then accept HtmlTousPresents
  else if (size missing_tags <=? 2)%nat then accept HtmlApprocheDifferente
  else reject HtmlElementsManquants.

(** [_validate_python]. *)
Definition _validate_python (exercise : Exercise) (code : string) : Result :=
  let has_function := contains "def " code in
  let has_logic := any_in ["if"; "for"; "while"; "return"; "print"] code in
  let solution_lower := lower (solution_code exercise) in
  let code_lower := lower code in
  let solution_has_function := contains "def " (solution_code exercise) in
  let solution_has_print := contains "print" solution_lower in
  let solution_has_loop := any_in ["for "; "while "] solution_lower in
  let solution_has_conditional := contains "if " solution_lower in
  let code_lines := code_lines "#" code in
  if (List.length code_lines <? 2)%nat then reject PyTropCourt
  else if solution_has_function && negb has_function then reject PyFonctionRequise
  else if solution_has_loop && negb (any_in ["for "; "while "] code_lower)
  then reject PyBoucleRequise
  else if solution_has_conditional && negb (contains "if " code_lower)
  then reject PyConditionRequise
  else if solution_has_print && negb (contains "print" code_lower)
  then reject PyAffichageRequis
  else if has_logic && (2 <=? List.length code_lines)%nat then accept PyValide
  else reject PyIncomplete.

(** [_validate_javascript]. *)
Definition _validate_javascript (exercise : Exercise) (code : string) : Result :=
  let solution_lower := lower (solution_code exercise) in
  let code_lower := lower code in
  let has_function := any_in ["function"; "=>"; "const"; "let"; "var"] code in
  let has_logic :=
    any_in ["if"; "for"; "while"; "return"; "console.log"; "alert"; "prompt"] code in
  let has_array_methods := any_in [".map"; ".filter"; ".reduce"; ".forEach"] code in
  let solution_has_function := any_in ["function"; "=>"] (solution_code exercise) in
  let solution_has_loop := any_in ["for"; "while"; ".map"; ".foreach"] solution_lower in
  let solution_has_conditional := contains "if" solution_lower in
  let uses_browser_apis :=
    any_in ["alert"; "prompt"; "confirm"; "document."; "window."] code_lower in
  let code_lines := code_lines "//" code in
  if solution_has_function && negb has_function then reject JsFonctionRequise
  else if solution_has_loop &&
          negb (any_in ["for"; "while"; ".map"; ".foreach"; ".filter"; ".reduce"]
                       code_lower)
  then reject JsBoucleRequise
  else if solution_has_conditional && negb (contains "if" code_lower)
  then reject JsConditionRequise
  else if (List.length code_lines <? 2)%nat then reject JsTropCourt
  else if (has_function || has_logic || has_array_methods)
          && (2 <=? List.length code_lines)%nat
  then accept (JsValide uses_browser_apis)
  else reject JsIncomplete.

(** [_validate_cpp]. *)
Definition _validate_cpp (exercise : Exercise) (code : string) : Result :=
  let has_includes := contains "#include" code in
  let has_main := contains "int main" code in
  let solution_lower := lower (solution_code exercise) in
  let solution_has_main := contains "int main" solution_lower in
  let solution_has_cout := contains "cout" solution_lower in
  let solution_has_loop := any_in ["for"; "while"] solution_lower in
  let code_lines := code_lines "//" code in
  if (List.length code_lines <? 3)%nat then reject CppTropCourt
  else if negb has_includes then reject CppHeadersRequis
  else if solution_has_main && negb has_main then reject CppMainRequis
  else if solution_has_cout && negb (contains "cout" (lower code))
  then reject CppAffichageRequis
  else if solution_has_loop && negb (any_in ["for"; "while"] (lower code))
  then reject CppBoucleRequise
  else
    let all_requirements_met :=
      has_includes &&
      (negb solution_has_main || has_main) &&
      (negb solution_has_cout || contains "cout" (lower code)) &&
      (negb solution_has_loop || any_in ["for"; "while"] (lower code)) &&
      (3 <=? List.length code_lines)%nat in
    if all_requirements_met then accept CppValide else reject CppIncomplete.

(** [_validate_java]. *)
Definition _validate_java (exercise : Exercise) (code : string) : Result :=
  let has_class := contains "class" code in
  let has_main := contains "public static void main" code in
  let solution_lower := lower (solution_code exercise) in
  let solution_has_main := contains "public static void main" solution_lower in
  let solution_has_sysout := contains "system.out" solution_lower in
  let solution_has_loop := any_in ["for"; "while"] solution_lower in
  let code_lines := code_lines "//" code in
  if (List.length code_lines <? 3)%nat then reject JavaTropCourt
  else if negb has_class then reject JavaClasseRequise
  else if solution_has_main && negb has_main then reject JavaMainRequis
  else if solution_has_sysout && negb (contains "system.out" (lower code))
  then reject JavaAffichageRequis
  else if solution_has_loop && negb (any_in ["for"; "while"] (lower code))
  then reject JavaBoucleRequise
  else
    let all_requirements_met :=
      has_class &&
      (negb solution_has_main || has_main) &&
      (negb solution_has_sysout || contains "system.out" (lower code)) &&
      (negb solution_has_loop || any_in ["for"; "while"] (lower code)) &&
      (3 <=? List.length code_lines)%nat in
    if all_requirements_met then accept JavaValide else reject JavaIncomplete.

(** [_validate_c]. *)
Definition _validate_c (exercise : Exercise) (code : string) : Result :=
  let has_includes := contains "#include" code in
  let has_main := contains "int main" code in
  let solution_lower := lower (solution_code exercise) in
  let solution_has_main := contains "int main" solution_lower in
  let solution_has_printf := contains "printf" solution_lower in
  let solution_has_loop := any_in ["for"; "while"] solution_lower in
  let code_lines := code_lines "//" code in
  if (List.length code_lines <? 3)%nat then reject CTropCourt
  else if negb has_includes then reject CHeadersRequis
  else if solution_has_main && negb has_main then reject CMainRequis
  else if solution_has_printf && negb (contains "printf" (lower code))
  then reject CAffichageRequis
  else if solution_has_loop && negb (any_in ["for"; "while"] (lower code))
  then reject CBoucleRequise
  else
    let all_requirements_met :=
      has_includes &&
      (negb solution_has_main || has_main) &&
      (negb solution_has_printf || contains "printf" (lower code)) &&
      (negb solution_has_loop || any_in ["for"; "while"] (lower code)) &&
      (3 <=? List.length code_lines)%nat in
    if all_requirements_met then accept CValide else reject CIncomplete.

(** [_validate_sql]. *)
Definition _validate_sql (exercise : Exercise) (code : string) : Result :=
  let code_upper := upper code in
  let solution_upper := upper (solution_code exercise) in
  let has_select := contains "SELECT" code_upper in
  let has_from := contains "FROM" code_upper in
  let has_where := contains "WHERE" code_upper in
  let has_insert := contains "INSERT" code_upper in
  let has_update := contains "UPDATE" code_upper in
  let has_delete := contains "DELETE" code_upper in
  let has_create := contains "CREATE" code_upper in
  let has_join := contains "JOIN" code_upper in
  let solution_has_select := contains "SELECT" solution_upper in
  let solution_has_where := contains "WHERE" solution_upper in
  let solution_has_join := contains "JOIN" solution_upper in
  let has_sql_keyword :=
    existsb (fun b : bool => b)
            [has_select; has_insert; has_update; has_delete; has_create] in
  if negb has_sql_keyword then reject SqlRequeteRequise
  else if solution_has_select && negb has_select then reject SqlSelectRequis
  else if solution_has_select && has_select && contains "FROM" solution_upper
          && negb has_from
  then reject SqlFromRequis
  else if solution_has_where && negb has_where then reject SqlWhereRequis
  else if solution_has_join && negb has_join then reject SqlJoinRequis
  else
    let all_requirements_met :=
      has_sql_keyword &&
      (negb solution_has_select || has_select) &&
      (negb solution_has_where || has_where) &&
      (negb solution_has_join || has_join) &&
      (negb (solution_has_select && contains "FROM" solution_upper) || has_from) &&
      (10 <? len (strip code))%nat in
    if all_requirements_met then accept SqlValide else reject SqlIncomplete.

(** [_validate_generic].  As in the similarity fallback, the quotient
    Python computes in double precision is kept exact. *)
Definition _validate_generic (exercise : Exercise) (code : string) : Result :=
  let submitted_clean := lower (join_empty (split_ws code)) in
  let solution_clean := lower (join_empty (split_ws (solution_code exercise))) in
  if (len submitted_clean <? 15)%nat then reject GenTropCourt
  else
    let common_chars := count_equal submitted_clean solution_clean in
    let similarity :=
      (inject_Z (Z.of_nat common_chars)
       / inject_Z (Z.of_nat (Nat.max (len solution_clean) 1)))%Q in
    if GeminiService.Qgtb similarity (7 # 10) then accept GenAcceptee
    else if GeminiService.Qgtb similarity (5 # 10) then reject (GenProche similarity)
    else reject GenEssayezEncore.

(** [not submitted_code or len(submitted_code.strip()) < 5]. *)
Definition too_short (submitted_code : string) : bool :=
  negb (truthy submitted_code) || (len (strip submitted_code) <? 5)%nat.

(** [_validate_solution_intelligent]: the dispatch on the language tag. *)
Definition _validate_solution_intelligent
    (exercise : Exercise) (submitted_code : string) : Result :=
  if too_short submitted_code then reject CodeTropCourt
  else
    let language := lower (language exercise) in
    if in_list language ["html"; "css"; "xml"]
    then _validate_html_css exercise submitted_code
    else if in_list language ["javascript"; "js"; "typescript"]
    then _validate_javascript exercise submitted_code
    else if String.eqb language "python"
    then _validate_python exercise submitted_code
    else if in_list language ["c++"; "cpp"]
    then _validate_cpp exercise submitted_code
    else if String.eqb language "java"
    then _validate_java exercise submitted_code
    else if String.eqb language "c"
    then _validate_c exercise submitted_code
    else if String.eqb language "sql"
    then _validate_sql exercise submitted_code
    else _validate_generic exercise submitted_code.

(** ** The orchestrator *)

(** The sandbox's result dictionary; an absent key reads as the empty
    string, which [.get] treats the same way. *)
Record ExecutionResult := mkExecutionResult {
  success : bool;
  stdout : string;
  stderr : string;
  compile_output : string
}.

(** The oracle's verdict dictionary. *)
Record AIResult := mkAIResult {
  ai_is_correct : bool;
  ai_score : Z;
  ai_feedback : string;
  ai_suggestions : string;
  ai_reasoning : string
}.

(** The two external services.  [execute_code source language stdin];
    [evaluate_code submitted solution language instructions output]. *)
Record Services := mkServices {
  execute_code : string -> string -> string -> option ExecutionResult;
  gemini_is_available : bool;
  evaluate_code :
    string -> string -> string -> string -> option string -> option AIResult
}.

(** The stages a submission went through, in order. *)
Inductive Stage := StageExecute | StageAI | StageHeuristic.

(** The locals the execution step leaves behind. *)
Record Locals := mkLocals {
  execution_output : option string;
  has_compilation_error : bool;
  has_runtime_error : bool;
  error_message : string
}.

Definition browser_apis : list string :=
  ["alert"; "prompt"; "confirm"; "document"; "window"; "console"; "localStorage"].

(** The annotation handed to the oracle (its leading warning sign is
    left out). *)
Definition browser_warning (stderr : string) : string :=
  " Code utilise des APIs navigateur: " ++ take 100 stderr.

(** Step 1, the [try] block: an early verdict or the locals. *)
Definition run_execution (svc : Services) (exercise : Exercise)
    (submitted_code : string) : Result + Locals :=
  match execute_code svc submitted_code (language exercise) EmptyString with
  | None => inr (mkLocals None false false EmptyString)
  | Some result =>
      if success result then
        inr (mkLocals (Some (stdout result)) false false EmptyString)
      else if truthy (compile_output result) then
        inr (mkLocals None true false (compile_output result))
      else if truthy (stderr result) then
        if in_list (lower (language exercise)) ["javascript"; "js"; "typescript"]
        then
          if any_in browser_apis (stderr result)
          then inr (mkLocals (Some (browser_warning (stderr result)))
                             false true (stderr result))
          else inl (reject (ErreurExecution (take 200 (stderr result))))
        else inr (mkLocals None false true (stderr result))
      else inr (mkLocals None false false EmptyString)
  end.

(** [_validate_with_ai_and_execution]: the verdict and the stages run. *)
Definition _validate_with_ai_and_execution (svc : Services)
    (exercise : Exercise) (submitted_code : string) : Result * list Stage :=
  if too_short submitted_code then (reject CodeTropCourt, [])
  else
    match run_execution svc exercise submitted_code with
    | inl early => (early, [StageExecute])
    | inr st =>
        if has_compilation_error st then
          (reject (ErreurCompilation (take 200 (error_message st))), [StageExecute])
        else if gemini_is_available svc then
          match evaluate_code svc submitted_code (solution_code exercise)
                  (language exercise) (instructions exercise)
                  (execution_output st) with
          | Some ai =>
              (mkResult (ai_is_correct ai)
                 (AIEvaluation (ai_feedback ai) (ai_suggestions ai)
                               (take 300 (ai_reasoning ai)) (ai_score ai)),
               [StageExecute; StageAI])
          | None =>
              (_validate_solution_intelligent exercise submitted_code,
               [StageExecute; StageAI; StageHeuristic])
          end
        else
          (_validate_solution_intelligent exercise submitted_code,
           [StageExecute; StageHeuristic])
    end.

(** ** The endpoints that touch the ledger *)

(** [UserProgress.objects.get_or_create(user=request.user)] on the
    user's row, if there is one. *)
Definition get_or_create (row : option Models.UserProgress) : Models.UserProgress :=
  match row with
  | Some p => p
  | None => Models.new_progress
  end.

Inductive VideoResponse :=
| VideoUnauthorized                      (* 401 *)
| VideoMarked (points : Z)               (* 'Video marked as completed' *)
| VideoAlreadyCompleted.                 (* 'Video already completed' *)

(** [AcademyVideoViewSet.mark_completed]: the response and the user's
    row afterwards. *)
Definition mark_completed (is_authenticated : bool) (video : nat)
    (row : option Models.UserProgress)
  : VideoResponse * option Models.UserProgress :=
  if negb is_authenticated then (VideoUnauthorized, row)
  else
    let progress := get_or_create row in
    if negb (bool_decide (video ∈ Models.completed_videos progress)) then
      let progress' :=
        Models.mkUserProgress
          ({[video]} ∪ Models.completed_videos progress)
          (Models.completed_exercises progress)
          (Models.xp progress) (Models.level progress)
          (Models.total_points progress + 10)%Z
          (Models.streak_days progress) (Models.last_activity_date progress) in
      (VideoMarked (Models.total_points progress'), Some progress')
    else (VideoAlreadyCompleted, Some progress).

(** The JSON body of [submit]; an absent key is [None]. *)
Record Response := mkResponse {
  http_status : Z;
  resp_success : option bool;
  resp_message : option Message;
  resp_points : option Z;
  resp_total_points : option Z;
  resp_already_completed : option bool;
  resp_current_answer_incorrect : option bool
}.

(** [points_map.get(exercise.difficulty, 20)]. *)
Definition points_for (difficulty : string) : Z :=
  if String.eqb difficulty "easy" then 20%Z
  else if String.eqb difficulty "medium" then 30%Z
  else if String.eqb difficulty "hard" then 50%Z
  else 20%Z.

(** [AcademyExerciseViewSet.submit]: the response and the user's row
    afterwards. *)
Definition submit (svc : Services) (is_authenticated : bool)
    (exercise : Exercise) (code : string) (row : option Models.UserProgress)
  : Response * option Models.UserProgress :=
  if negb is_authenticated then
    (mkResponse 401 None None None None None None, row)
  else
    let progress := get_or_create row in
    let is_already_completed :=
      bool_decide (id exercise ∈ Models.completed_exercises progress) in
    let validation_result :=
      fst (_validate_with_ai_and_execution svc exercise code) in
    if is_already_completed then
      if is_correct validation_result then
        (mkResponse 200 (Some true) (Some DejaCompleteCorrecte) (Some 0%Z)
                    (Some (Models.total_points progress)) (Some true) None,
         Some progress)
      else
        (mkResponse 200 (Some true) (Some DejaCompleteIncorrecte) (Some 0%Z)
                    (Some (Models.total_points progress)) (Some true) (Some true),
         Some progress)
    else if is_correct validation_result then
      let points := points_for (difficulty exercise) in
      let progress' :=
        Models.mkUserProgress
          (Models.completed_videos progress)
          ({[id exercise]} ∪ Models.completed_exercises progress)
          (Models.xp progress) (Models.level progress)
          (Models.total_points progress + points)%Z
          (Models.streak_days progress) (Models.last_activity_date progress) in
      (mkResponse 200 (Some true) (Some (message validation_result))
                  (Some points) (Some (Models.total_points progress')) None None,
       Some progress')
    else
      (mkResponse 200 (Some false) (Some (message validation_result))
                  None None None None,
       Some progress).

End Views.

(* ===================================================================== *)
(** * The sandbox client (judge0_service.py) *)
(* ===================================================================== *)

Module Judge0Service.
Import PyStr.

(** [LANGUAGE_IDS]. *)
Definition LANGUAGE_IDS : gmap string Z :=
  list_to_map
    [("python", 71%Z); ("javascript", 63%Z); ("java", 62%Z); ("cpp", 54%Z);
     ("c", 50%Z); ("sql", 82%Z); ("html", 63%Z); ("typescript", 74%Z)].

(** The [status] member of a polled result: absent, [null], or an object
    whose [id] and [description] may be absent. *)
Inductive RawStatus :=
| StatusAbsent
| StatusNull
| StatusObject (status_id : option Z) (description : option string).

(** The JSON object a poll returns; [None] is an absent or [null]
    member.  The members [time] and [memory] are copied through by the
    source and left out here. *)
Record RawResult := mkRawResult {
  raw_status : RawStatus;
  raw_stdout : option string;
  raw_stderr : option string;
  raw_compile_output : option string
}.

(** The failure dictionaries, one constructor per [return]. *)
Inductive Failure :=
| ServiceUnavailable
| UnsupportedLanguage (language : string)
| RequestTimeout
| CannotConnect
| SubmissionFailed (status_code : Z)
| NoToken
| ExecutionTimeout
| NetworkError
| UnexpectedError.

(** The [message] of a formatted result; the last two are the ones
    [validate_solution] writes over it. *)
Inductive StatusMessage :=
| ExecutedSuccessfully | CompilationError | WrongAnswer | TimeLimitExceeded
| RuntimeError (description : string)
| OtherStatus (description : string)
| CorrectOutput                        (* 'Correct! Your solution produces ...' *)
| IncorrectOutput.                     (* 'Incorrect output' *)

Record FormattedResult := mkFormattedResult {
  f_success : bool;
  f_status : string;
  f_status_id : option Z;
  f_stdout : string;
  f_stderr : string;
  f_compile_output : string;
  f_message : StatusMessage
}.

(** What [execute_code] returns. *)
Inductive Judge0Result :=
| Failed (f : Failure)
| Formatted (r : FormattedResult).

(** [(x or '').strip()]. *)
Definition or_empty_strip (x : option string) : string :=
  match x with
  | Some s => strip s
  | None => EmptyString
  end.

(** [status.get('id')] and [status.get('description', 'Unknown')] once
    a missing or [null] status has been replaced by [{}]. *)
Definition status_id_of (st : RawStatus) : option Z :=
  match st with
  | StatusObject i _ => i
  | _ => None
  end.

Definition status_description_of (st : RawStatus) : string :=
  match st with
  | StatusObject _ (Some d) => d
  | _ => "Unknown"
  end.

Definition id_is (i : option Z) (n : Z) : bool :=
  match i with
  | Some k => (k =? n)%Z
  | None => false
  end.

Definition id_in (i : option Z) (ns : list Z) : bool :=
  existsb (id_is i) ns.

(** [_format_result]. *)
Definition _format_result (result : RawResult) : FormattedResult :=
  let status_id := status_id_of (raw_status result) in
  let status_description := status_description_of (raw_status result) in
  let stdout := or_empty_strip (raw_stdout result) in
  let stderr := or_empty_strip (raw_stderr result) in
  let compile_output := or_empty_strip (raw_compile_output result) in
  let success := id_is status_id 3 in
  let message :=
    if id_is status_id 3 then ExecutedSuccessfully
    else if id_is status_id 6 then CompilationError
    else if id_is status_id 4 then WrongAnswer
    else if id_is status_id 5 then TimeLimitExceeded
    else if id_in status_id [7; 8; 9; 10; 11; 12; 13; 14]%Z
    then RuntimeError status_description
    else OtherStatus status_description in
  mkFormattedResult success status_description status_id
                    stdout stderr compile_output message.

(** What one HTTP call can do.  A [POST] raises or answers with a status
    code and a body that is not JSON or carries a token or none; a [GET]
    raises or answers with a status code and a JSON object. *)
Inductive PostOutcome :=
| PostTimeout
| PostConnectionError
| PostRequestException
| PostOtherException
| PostResponse (status_code : Z) (token : option (option string)).

Inductive GetOutcome :=
| GetRequestException
| GetOtherException
| GetResponse (status_code : Z) (body : RawResult).

(** The body of the submission request. *)
Record Submission := mkSubmission {
  source_code : string;
  language_id : Z;
  stdin : string;
  expected_output : option string
}.

(** The network as the client sees it; the answer to a poll may depend
    on which attempt it is. *)
Record Network := mkNetwork {
  post : Submission -> PostOutcome;
  get : string -> nat -> GetOutcome
}.

Inductive NetCall :=
| CallPost (s : Submission)
| CallGet (token : string) (attempt : nat).

(** How the polling loop ends: with a result, or with an exception that
    is not a [RequestException]. *)
Inductive PollEnd :=
| Returned (r : Judge0Result)
| Raised.

(** The loop of [_wait_for_result] from attempt [attempt] on, with
    [remaining] attempts left: how it ends and the polls it made. *)
Fixpoint wait_loop (net : Network) (token : string) (attempt remaining : nat)
  : PollEnd * list NetCall :=
  match remaining with
  | O => (Returned (Failed ExecutionTimeout), [])
  | S remaining' =>
      let continue :=
        let (r, calls) := wait_loop net token (S attempt) remaining' in
        (r, CallGet token attempt :: calls) in
      match get net token attempt with
      | GetRequestException => continue
      | GetOtherException => (Raised, [CallGet token attempt])
      | GetResponse status_code result =>
          if negb (status_code =? 200)%Z then continue
          else
            match raw_status result with
            | StatusNull => (Raised, [CallGet token attempt])
            | st =>
                if id_in (status_id_of st) [1; 2]%Z then continue
                else (Returned (Formatted (_format_result result)),
                      [CallGet token attempt])
            end
      end
  end.

(** [_wait_for_result], with its default of 10 attempts. *)
Definition _wait_for_result (net : Network) (token : string)
  : PollEnd * list NetCall :=
  wait_loop net token 0 10.

(** [if expected_output:] keeps a non-empty expected output only. *)
Definition expected_field (expected_output : option string) : option string :=
  match expected_output with
  | Some e => if truthy e then Some e else None
  | None => None
  end.

(** [execute_code]: the result and the network calls made.
    [requests_available] is [requests is not None]. *)
Definition execute_code (requests_available : bool) (net : Network)
    (source_code language stdin : string) (expected_output : option string)
  : Judge0Result * list NetCall :=
  if negb requests_available then (Failed ServiceUnavailable, [])
  else
    match LANGUAGE_IDS !! language with
    | None => (Failed (UnsupportedLanguage language), [])
    | Some language_id =>
        if (language_id =? 0)%Z then (Failed (UnsupportedLanguage language), [])
        else
          let submission_data :=
            mkSubmission source_code language_id stdin
                         (expected_field expected_output) in
          let posted := [CallPost submission_data] in
          match post net submission_data with
          | PostTimeout => (Failed RequestTimeout, posted)
          | PostConnectionError => (Failed CannotConnect, posted)
          | PostRequestException => (Failed NetworkError, posted)
          | PostOtherException => (Failed UnexpectedError, posted)
          | PostResponse status_code body =>
              if negb ((status_code =? 200)%Z || (status_code =? 201)%Z)
              then (Failed (SubmissionFailed status_code), posted)
              else
                match body with
                | None => (Failed UnexpectedError, posted)
                | Some token_member =>
                    match token_member with
                    | None => (Failed NoToken, posted)
                    | Some token =>
                        if negb (truthy token) then (Failed NoToken, posted)
                        else
                          match _wait_for_result net token with
                          | (Returned r, calls) => (r, posted ++ calls)
                          | (Raised, calls) =>
                              (Failed UnexpectedError, posted ++ calls)
                          end
                    end
                end
          end
    end.

(** The members the orchestrator reads with [.get]; a failure dictionary
    has none of the three texts. *)
Definition result_success (r : Judge0Result) : bool :=
  match r with
  | Failed _ => false
  | Formatted f => f_success f
  end.

Definition result_stdout (r : Judge0Result) : string :=
  match r with
  | Failed _ => EmptyString
  | Formatted f => f_stdout f
  end.

Definition result_stderr (r : Judge0Result) : string :=
  match r with
  | Failed _ => EmptyString
  | Formatted f => f_stderr f
  end.

Definition result_compile_output (r : Judge0Result) : string :=
  match r with
  | Failed _ => EmptyString
  | Formatted f => f_compile_output f
  end.

(** The members [validate_solution] adds to a successful result. *)
Record Validation := mkValidation {
  validated : bool;
  v_expected_output : option string;
  v_actual_output : option string
}.

(** [result['message'] = message]. *)
Definition with_message (f : FormattedResult) (message : StatusMessage)
  : FormattedResult :=
  mkFormattedResult (f_success f) (f_status f) (f_status_id f)
                    (f_stdout f) (f_stderr f) (f_compile_output f) message.

(** [validate_solution]: the result, with its message written over when
    the run succeeded, the members added to it then, and the network
    calls made.  A failure dictionary has [success] false and is
    returned as it is. *)
Definition validate_solution (requests_available : bool) (net : Network)
    (source_code language expected_output stdin : string)
  : Judge0Result * option Validation * list NetCall :=
  let (result, calls) :=
    execute_code requests_available net source_code language stdin
                 (Some expected_output) in
  match result with
  | Failed _ => (result, None, calls)
  | Formatted f =>
      if negb (f_success f) then (result, None, calls)
      else
        let actual_output := strip (f_stdout f) in
        let expected := strip expected_output in
        if String.eqb actual_output expected
        then (Formatted (with_message f CorrectOutput),
              Some (mkValidation true None None), calls)
        else (Formatted (with_message f IncorrectOutput),
              Some (mkValidation false (Some expected) (Some actual_output)),
              calls)
  end.

End Judge0Service.

(* ===================================================================== *)
(** * Course items and the course endpoints (models.py, views.py) *)
(* ===================================================================== *)

Module CourseViews.

(** [CourseItem]: a row of the items table. *)
Record CourseItem := mkCourseItem {
  item_id : nat;
  item_course : nat;
  content_type : string;
  order : Z
}.

(** [CourseItem.objects.filter(course=course)]. *)
Definition items_of (table : list CourseItem) (course_id : nat) : list CourseItem :=
  List.filter (fun i => Nat.eqb (item_course i) course_id) table.

(** [.order_by('order').first()]: the row of least [order], the earliest
    such row of the list on a tie. *)
Fixpoint first_by_order (l : list CourseItem) : option CourseItem :=
  match l with
  | [] => None
  | i :: rest =>
      match first_by_order rest with
      | Some j => if (order j <? order i)%Z then Some j else Some i
      | None => Some i
      end
  end.

(** [.order_by('-order').first()]: the row of greatest [order]. *)
Fixpoint last_by_order (l : list CourseItem) : option CourseItem :=
  match l with
  | [] => None
  | i :: rest =>
      match last_by_order rest with
      | Some j => if (order i <? order j)%Z then Some j else Some i
      | None => Some i
      end
  end.

(** [CourseItem.get_next_item]. *)
Definition get_next_item (table : list CourseItem) (self : CourseItem)
  : option CourseItem :=
  first_by_order
    (List.filter (fun i => (order self <? order i)%Z)
                 (items_of table (item_course self))).

(** [CourseItem.get_previous_item]. *)
Definition get_previous_item (table : list CourseItem) (self : CourseItem)
  : option CourseItem :=
  last_by_order
    (List.filter (fun i => (order i <? order self)%Z)
                 (items_of table (item_course self))).

(** The [Course] row as the ledger sees it: the keys of its items. *)
Definition course_row (table : list CourseItem) (course_id : nat) : Models.Course :=
  Models.mkCourse (list_to_set (List.map item_id (items_of table course_id))).

(** The row [UserCourseProgress.objects.get_or_create] inserts. *)
Definition new_course_progress (c : Models.Course) : Models.UserCourseProgress :=
  Models.mkUserCourseProgress c None ∅ false false 0%Z None None.

(** [CourseViewSet.start], with [timezone.now()] as an argument: the
    user's row for the course afterwards. *)
Definition start (table : list CourseItem) (course_id : nat) (now : Z)
    (row : option Models.UserCourseProgress) : Models.UserCourseProgress :=
  let created := match row with Some _ => false | None => true end in
  let progress :=
    match row with
    | Some p => p
    | None => new_course_progress (course_row table course_id)
    end in
  if created || negb (Models.is_started progress) then
    let first_item := first_by_order (items_of table course_id) in
    Models.mkUserCourseProgress
      (Models.course progress)
      (match first_item with
       | Some i => Some (item_id i)
       | None => Models.current_item progress
       end)
      (Models.completed_items progress)
      true (Models.is_completed progress)
      (Models.completion_percentage progress)
      (Some now) (Models.completed_at progress)
  else progress.

(** [CourseItem.objects.get(id=item_id, course=course)]. *)
Definition find_item (table : list CourseItem) (course_id : nat) (wanted : nat)
  : option CourseItem :=
  List.find (fun i => Nat.eqb (item_id i) wanted) (items_of table course_id).

Inductive ItemResponse :=
| ItemIdRequired                          (* 400 *)
| ItemNotFound                            (* 404 *)
| ItemCompleted (next_id : nat) (next_order : Z) (next_content_type : string)
                (completion_percentage : Z) (is_completed : bool)
| CourseCompleted (completion_percentage : Z) (is_completed : bool).

(** The state [complete_item] works on: the user's row for the course
    and the user's ledger row, if any. *)
Definition Rows : Type :=
  option Models.UserCourseProgress * option Models.UserProgress.

(** [CourseViewSet.complete_item], with [timezone.now()] and
    [date.today()] as arguments.  The response is [None] when
    [calculate_progress] raises; what was saved before stays saved. *)
Definition complete_item (table : list CourseItem) (course_id : nat)
    (now today : Z) (requested : option nat) (rows : Rows)
  : option ItemResponse * Rows :=
  let (course_progress_row, ledger_row) := rows in
  match requested with
  | None => (Some ItemIdRequired, rows)
  | Some O => (Some ItemIdRequired, rows)
  | Some wanted =>
      match find_item table course_id wanted with
      | None => (Some ItemNotFound, rows)
      | Some item =>
          let created :=
            match course_progress_row with Some _ => false | None => true end in
          let stored :=
            match course_progress_row with
            | Some p => p
            | None => new_course_progress (course_row table course_id)
            end in
          let first_time :=
            negb (bool_decide (item_id item ∈ Models.completed_items stored)) in
          (* the many-to-many row is written at once *)
          let stored' :=
            if first_time then
              Models.mkUserCourseProgress
                (Models.course stored) (Models.current_item stored)
                ({[item_id item]} ∪ Models.completed_items stored)
                (Models.is_started stored) (Models.is_completed stored)
                (Models.completion_percentage stored)
                (Models.started_at stored) (Models.completed_at stored)
            else stored in
          let ledger' :=
            if first_time then
              let user_progress := Views.get_or_create ledger_row in
              let xp := if String.eqb (content_type item) "video"
                        then 10%Z else 50%Z in
              Some (Models.check_streak today
                      (fst (Models.add_xp user_progress xp)))
            else ledger_row in
          (* the instance in memory: started if just created, and its
             course read from the table *)
          let progress :=
            Models.mkUserCourseProgress
              (course_row table course_id) (Models.current_item stored')
              (Models.completed_items stored')
              (if created then true else Models.is_started stored')
              (Models.is_completed stored')
              (Models.completion_percentage stored')
              (if created then Some now else Models.started_at stored')
              (Models.completed_at stored') in
          match Models.calculate_progress now progress with
          | None => (None, (Some stored', ledger'))
          | Some (saved, _) =>
              match get_next_item table item with
              | Some next_item =>
                  let moved :=
                    Models.mkUserCourseProgress
                      (Models.course saved) (Some (item_id next_item))
                      (Models.completed_items saved)
                      (Models.is_started saved) (Models.is_completed saved)
                      (Models.completion_percentage saved)
                      (Models.started_at saved) (Models.completed_at saved) in
                  (Some (ItemCompleted (item_id next_item) (order next_item)
                                       (content_type next_item)
                                       (Models.completion_percentage moved)
                                       (Models.is_completed moved)),
                   (Some moved, ledger'))
              | None =>
                  (Some (CourseCompleted 100%Z true), (Some saved, ledger'))
              end
          end
      end
  end.

End CourseViews.

(* ===================================================================== *)
(** * Properties of the ledger *)
(* ===================================================================== *)

Module LedgerProofs.
Import Models.
Local Open Scope Z_scope.

(** ** Levels *)

(** Spec-side reading of "the largest n in 1..8 whose table entry is at
    most x"; entry [n] of the table is at list position [n - 1]. *)
Definition highest_level (x n : Z) : Prop :=
  1 <= n <= 8 /\
  (exists t, level_thresholds !! Z.to_nat (n - 1) = Some t /\ t <= x) /\
  (forall m t, 1 <= m <= 8 ->
               level_thresholds !! Z.to_nat (m - 1) = Some t -> t <= x -> m <= n).

Definition loop_body (x : Z) (lvl : Z) (p : Z * Z) : Z :=
  let (level, threshold) := p in if x >=? threshold then level else lvl.

Lemma level_loop_unfold ths x l0 :
  level_loop ths x l0 = fold_left (loop_body x) (enumerate 1 ths) l0.
Proof. reflexivity. Qed.

(** What the loop leaves in [level], for any table and any first index:
    the initial value when no threshold is met, otherwise the index of
    the last threshold that is. *)
Lemma loop_last_met (ths : list Z) : forall (k x l0 : Z),
  let r := fold_left (loop_body x) (enumerate k ths) l0 in
  ((forall i t, ths !! i = Some t -> x < t) /\ r = l0) \/
  (exists i t, ths !! i = Some t /\ t <= x /\ r = k + Z.of_nat i /\
               forall j u, ths !! j = Some u -> u <= x -> (j <= i)%nat).
Proof.
  induction ths as [|t0 rest IH]; intros k x l0; simpl.
  - left. split; [intros i t H; destruct i; discriminate H | reflexivity].
  - specialize (IH (k + 1) x (if x >=? t0 then k else l0)).
    cbv zeta in IH.
    destruct IH as [[Hnone Hr] | (i & t & Hi & Hle & Hr & Hmax)].
    + destruct (Z.geb_spec x t0) as [Hge | Hlt].
      * right. exists 0%nat, t0. repeat split; [lia | rewrite Hr; lia |].
        intros [|j] u Hj Hu; [lia |]. simpl in Hj.
        specialize (Hnone j u Hj). lia.
      * left. split; [| exact Hr].
        intros [|j] u Hj; simpl in Hj; [injection Hj as <-; lia | eauto].
    + right. exists (S i), t. repeat split; [exact Hi | exact Hle | rewrite Hr; lia |].
      intros [|j] u Hj Hu; [lia |]. simpl in Hj.
      specialize (Hmax j u Hj Hu). lia.
Qed.

Lemma thresholds_lookup (m : Z) (t : Z) :
  1 <= m <= 8 -> level_thresholds !! Z.to_nat (m - 1) = Some t ->
  exists i : nat, (i < 8)%nat /\ m = 1 + Z.of_nat i /\ level_thresholds !! i = Some t.
Proof.
  intros Hm Hl. exists (Z.to_nat (m - 1)). repeat split; [lia | lia | exact Hl].
Qed.

(** The level the loop computes on the fixed table, once XP is not
    negative. *)
Lemma level_loop_highest (x l0 : Z) :
  0 <= x -> highest_level x (level_loop level_thresholds x l0).
Proof.
  intros Hx. rewrite level_loop_unfold.
  destruct (loop_last_met level_thresholds 1 x l0)
    as [[Hnone _] | (i & t & Hi & Hle & Hr & Hmax)].
  - specialize (Hnone 0%nat 0 eq_refl). lia.
  - rewrite Hr.
    assert (Hlt : (i < 8)%nat).
    { apply lookup_lt_Some in Hi. exact Hi. }
    split; [lia |]. split.
    + exists t. split; [| exact Hle].
      replace (Z.to_nat (1 + Z.of_nat i - 1)) with i by lia. exact Hi.
    + intros m u Hm Hl Hu.
      destruct (thresholds_lookup m u Hm Hl) as (j & _ & -> & Hj).
      specialize (Hmax j u Hj Hu). lia.
Qed.

(** Two levels that are highest for [x <= y] are ordered the same way. *)
Lemma highest_level_mono (x y n m : Z) :
  x <= y -> highest_level x n -> highest_level y m -> n <= m.
Proof.
  intros Hxy (Hn & (t & Ht & Htx) & _) (_ & _ & Hmax).
  apply (Hmax n t Hn Ht). lia.
Qed.

(** A negative XP total meets no threshold: the stored level stays. *)
Lemma level_loop_negative (x l0 : Z) :
  x < 0 -> level_loop level_thresholds x l0 = l0.
Proof.
  intros Hx. unfold level_loop, level_thresholds. simpl.
  repeat match goal with
         | |- context [x >=? ?c] => destruct (Z.geb_spec x c); [lia |]
         end.
  reflexivity.
Qed.

(** One more non-negative award does not lower the level. *)
Lemma add_xp_next_level_le (self : UserProgress) (points more : Z) :
  0 <= xp self + points -> 0 <= more ->
  snd (add_xp self points) <= snd (add_xp (fst (add_xp self points)) more).
Proof.
  intros Hx Hmore. simpl.
  apply (highest_level_mono (xp self + points) (xp self + points + more)).
  - lia.
  - apply level_loop_highest; exact Hx.
  - apply level_loop_highest; lia.
Qed.

(** C5 as stated fails for a call that leaves the XP total negative: no
    threshold is met, no n in 1..8 qualifies, and the loop leaves the
    level as stored.  Here a row with 50 XP at level 5 is given -60: it
    ends with -10 XP, still at level 5. *)
Lemma add_xp_negative_total :
  let row := mkUserProgress ∅ ∅ 50 5 50 0 None in
  let after := fst (add_xp row (-60)) in
  xp after = -10 /\ level after = 5 /\
  ~ highest_level (xp after) (level after) /\
  forall n, ~ highest_level (xp after) n.
Proof.
  intros row after.
  assert (Hnone : forall n, ~ highest_level (-10) n).
  { intros n (Hn & (t & Ht & Hle) & _).
    destruct (thresholds_lookup n t Hn Ht) as (i & Hi & _ & Hlook).
    do 8 (destruct i as [|i]; [cbn in Hlook; injection Hlook as <-; lia |]).
    lia. }
  split; [reflexivity |]. split; [reflexivity |].
  split; [apply Hnone | exact Hnone].
Qed.

(** C5, amended: after a call to [add_xp] that leaves the XP total
    non-negative, the stored level is the largest n in 1..8 whose
    threshold in [0, 100, 300, 700, 1500, 3000, 6000, 10000] is at most
    the new XP, and a further call with a non-negative amount does not
    lower it; a call that leaves the total negative keeps the level that
    was stored.  In both cases the level returned is the level stored. *)
Theorem add_xp_level_is_highest (self : UserProgress) (points : Z) :
  let after := fst (add_xp self points) in
  xp after = xp self + points /\
  snd (add_xp self points) = level after /\
  (0 <= xp self + points ->
   highest_level (xp after) (level after) /\
   forall more, 0 <= more -> level after <= level (fst (add_xp after more))) /\
  (xp self + points < 0 -> level after = level self).
Proof.
  intros after. subst after.
  split; [reflexivity |]. split; [reflexivity |]. split.
  - intros Hx. split; [apply level_loop_highest; exact Hx |].
    intros more Hmore.
    apply (add_xp_next_level_le self points more Hx Hmore).
  - intros Hneg. apply level_loop_negative. exact Hneg.
Qed.

Lemma add_xp_level_is_highest_witness :
  let after := fst (add_xp new_progress 310) in
  xp after = 310 /\ level after = 3 /\
  highest_level (xp after) (level after) /\
  level after <= level (fst (add_xp after 400)) /\
  level (fst (add_xp new_progress (-5))) = 1.
Proof.
  pose proof (add_xp_level_is_highest new_progress 310) as (Hxp & _ & Hpos & _).
  destruct (Hpos ltac:(simpl; lia)) as [Hhigh Hmono].
  pose proof (add_xp_level_is_highest new_progress (-5)) as (_ & _ & _ & Hneg).
  split; [reflexivity |]. split; [reflexivity |].
  split; [exact Hhigh |]. split; [apply Hmono; lia |].
  apply Hneg. simpl. lia.
Defined.

(** Over any run of non-negative awards, the level never goes down from
    one call to the next. *)
Fixpoint levels_after (self : UserProgress) (awards : list Z) : list Z :=
  match awards with
  | [] => []
  | a :: rest => snd (add_xp self a) :: levels_after (fst (add_xp self a)) rest
  end.

Fixpoint non_decreasing (l : list Z) : Prop :=
  match l with
  | a :: (b :: _) as rest => a <= b /\ non_decreasing rest
  | _ => True
  end.

Lemma levels_after_non_decreasing (awards : list Z) : forall self,
  0 <= xp self -> Forall (fun a => 0 <= a) awards ->
  non_decreasing (levels_after self awards).
Proof.
  induction awards as [|a rest IH]; intros self Hxp Hall; [exact I |].
  inversion Hall as [|? ? Ha Hrest]; subst.
  destruct rest as [|b rest']; [exact I |].
  split.
  - inversion Hrest as [|? ? Hb _]; subst.
    apply (add_xp_next_level_le self a b); lia.
  - apply IH; [simpl; lia | exact Hrest].
Qed.

(** ** Streaks *)

(** C6: [check_streak] as a function of today's date and the stored
    last-activity date: one day later adds 1 to the streak, more than one
    day later resets it to 1, the same day leaves it alone, no stored
    date sets it to 1; the date is stamped to today in every case, so a
    second call on the same day changes nothing. *)
Theorem check_streak_cases (today : Z) (self : UserProgress) :
  last_activity_date (check_streak today self) = Some today /\
  (forall last, last_activity_date self = Some last -> today - last = 1 ->
     streak_days (check_streak today self) = streak_days self + 1) /\
  (forall last, last_activity_date self = Some last -> today - last > 1 ->
     streak_days (check_streak today self) = 1) /\
  (last_activity_date self = Some today ->
     streak_days (check_streak today self) = streak_days self) /\
  (last_activity_date self = None ->
     streak_days (check_streak today self) = 1) /\
  check_streak today (check_streak today self) = check_streak today self.
Proof.
  split; [reflexivity |].
  split; [intros last Hl Hd; unfold check_streak; simpl; rewrite Hl;
          destruct (Z.eqb_spec (today - last) 1); [reflexivity | lia] |].
  split; [intros last Hl Hd; unfold check_streak; simpl; rewrite Hl;
          destruct (Z.eqb_spec (today - last) 1); [lia |];
          destruct (Z.gtb_spec (today - last) 1); [reflexivity | lia] |].
  split; [intros Hl; unfold check_streak; simpl; rewrite Hl;
          replace (today - today) with 0 by lia; reflexivity |].
  split; [intros Hl; unfold check_streak; simpl; rewrite Hl; reflexivity |].
  unfold check_streak; simpl.
  replace (today - today) with 0 by lia. reflexivity.
Qed.

Lemma check_streak_cases_witness :
  let p := mkUserProgress ∅ ∅ 0 1 0 4 (Some 738000) in
  streak_days (check_streak 738001 p) = 5 /\
  streak_days (check_streak 738009 p) = 1 /\
  streak_days (check_streak 738000 p) = 4 /\
  streak_days (check_streak 738000 new_progress) = 1.
Proof.
  intros p.
  pose proof (check_streak_cases 738001 p) as (_ & Hnext & _).
  pose proof (check_streak_cases 738009 p) as (_ & _ & Hgap & _).
  pose proof (check_streak_cases 738000 p) as (_ & _ & _ & Hsame & _).
  pose proof (check_streak_cases 738000 new_progress) as (_ & _ & _ & _ & Hnone & _).
  split; [apply (Hnext 738000); [reflexivity | lia] |].
  split; [apply (Hgap 738000); [reflexivity | lia] |].
  split; [apply Hsame; reflexivity | apply Hnone; reflexivity].
Defined.

(** A last-activity date in the future leaves the streak alone too. *)
Lemma check_streak_future (today last : Z) (self : UserProgress) :
  last_activity_date self = Some last -> today < last ->
  streak_days (check_streak today self) = streak_days self.
Proof.
  intros Hl Hlt. unfold check_streak; simpl; rewrite Hl.
  destruct (Z.eqb_spec (today - last) 1); [lia |].
  destruct (Z.gtb_spec (today - last) 1); [lia | reflexivity].
Qed.

End LedgerProofs.

(* ===================================================================== *)
(** * Properties of the course progress *)
(* ===================================================================== *)

Module CourseProofs.
Import Models.
Local Open Scope Z_scope.

(** Spec-side reading of the percentage: floor(100 * completed / total),
    and 0 for a course without items. *)
Definition floor_percentage (completed total : Z) : Z :=
  if total =? 0 then 0 else (100 * completed) / total.

(** A course of [total] items of which the first [done] are completed. *)
Definition course_of (total : nat) : Course :=
  mkCourse (list_to_set (seq 1 total)).

Definition started (total done : nat) : UserCourseProgress :=
  mkUserCourseProgress (course_of total) None (list_to_set (seq 1 done))
                       true false 0 (Some 0) None.

(** Once completed, a row keeps its flag and its completion date. *)
Lemma calculate_progress_keeps_latch (now : Z) (self after : UserCourseProgress)
    (pct : Z) :
  is_completed self = true ->
  calculate_progress now self = Some (after, pct) ->
  is_completed after = true /\ completed_at after = completed_at self.
Proof.
  intros Hc. unfold calculate_progress. rewrite Hc.
  destruct (get_total_items (course self) =? 0).
  - intros [= <- _]. simpl. split; reflexivity.
  - destruct (percentage _ _) as [p|]; [| discriminate].
    rewrite andb_false_r. intros [= <- _]. simpl. split; reflexivity.
Qed.

(** The flag is never cleared. *)
Lemma calculate_progress_never_clears (now : Z) (self after : UserCourseProgress)
    (pct : Z) :
  calculate_progress now self = Some (after, pct) ->
  is_completed self = true -> is_completed after = true.
Proof.
  intros Hcalc Hc.
  apply (calculate_progress_keeps_latch now self after pct Hc Hcalc).
Qed.

(** A row not yet completed is completed, and stamped, by the call that
    computes 100. *)
Lemma calculate_progress_sets_latch (now : Z) (self after : UserCourseProgress) :
  is_completed self = false ->
  calculate_progress now self = Some (after, 100) ->
  is_completed after = true /\ completed_at after = Some now /\
  completion_percentage after = 100.
Proof.
  intros Hc. unfold calculate_progress. rewrite Hc.
  destruct (get_total_items (course self) =? 0).
  - intros H. discriminate H.
  - destruct (percentage _ _) as [p|]; [| discriminate].
    destruct (Z.eqb_spec p 100) as [-> | Hne]; simpl.
    + intros H. injection H as <-. simpl. repeat split.
    + intros H. injection H as _ H. contradiction.
Qed.

(** A course without items reads 0 and latches nothing. *)
Lemma calculate_progress_empty_course (now : Z) (self : UserCourseProgress) :
  get_total_items (course self) = 0 ->
  exists after, calculate_progress now self = Some (after, 0) /\
                completion_percentage after = 0 /\
                is_completed after = is_completed self /\
                completed_at after = completed_at self.
Proof.
  intros H0. unfold calculate_progress. rewrite H0. simpl.
  eexists. split; [reflexivity |]. simpl. repeat split.
Qed.

(** A finished course of 50 items reads 100 and is latched. *)
Example calculate_progress_50_of_50 :
  exists after, calculate_progress 1000 (started 50 50) = Some (after, 100) /\
                is_completed after = true /\ completed_at after = Some 1000.
Proof. eexists. split; [vm_compute; reflexivity |]. split; reflexivity. Qed.

(** C7, the percentage: with 29 of 50 items completed the quotient 29/50
    is the double just below 0.58, its product with 100 is the double
    just below 58, and the truncation stores 57; floor(100 * 29 / 50) is
    58. *)
Theorem calculate_progress_29_of_50 :
  (exists after, calculate_progress 1000 (started 50 29) = Some (after, 57) /\
                 completion_percentage after = 57) /\
  floor_percentage (Z.of_nat (size (completed_items (started 50 29))))
                   (get_total_items (course (started 50 29))) = 58.
Proof.
  split.
  - eexists. split; [vm_compute; reflexivity | reflexivity].
  - vm_compute. reflexivity.
Qed.

End CourseProofs.

(* ===================================================================== *)
(** * Properties of the orchestrator *)
(* ===================================================================== *)

Module PipelineProofs.
Import PyStr Views.

Definition browser_language (exercise : Exercise) : bool :=
  in_list (lower (language exercise)) ["javascript"; "js"; "typescript"].

(** What the orchestrator does once the execution step has left its
    locals and no compilation error was flagged. *)
Definition grade (svc : Services) (exercise : Exercise) (submitted_code : string)
    (execution_output : option string) : Result * list Stage :=
  if gemini_is_available svc then
    match evaluate_code svc submitted_code (solution_code exercise)
            (language exercise) (instructions exercise) execution_output with
    | Some ai =>
        (mkResult (ai_is_correct ai)
           (AIEvaluation (ai_feedback ai) (ai_suggestions ai)
                         (take 300 (ai_reasoning ai)) (ai_score ai)),
         [StageExecute; StageAI])
    | None =>
        (_validate_solution_intelligent exercise submitted_code,
         [StageExecute; StageAI; StageHeuristic])
    end
  else
    (_validate_solution_intelligent exercise submitted_code,
     [StageExecute; StageHeuristic]).

(** The execution step on a compilation error. *)
Lemma run_execution_compile_error svc exercise code result :
  execute_code svc code (language exercise) EmptyString = Some result ->
  success result = false ->
  truthy (compile_output result) = true ->
  run_execution svc exercise code
  = inr (mkLocals None true false (compile_output result)).
Proof.
  intros Hexec Hfail Hcomp. unfold run_execution.
  rewrite Hexec, Hfail, Hcomp. reflexivity.
Qed.

(** C2: when the sandbox reports a compilation error (no success, a
    non-empty compile output) the orchestrator rejects; the AI grader and
    the heuristic validators are not run, and the outcome is the same
    whatever oracle is plugged in.  Past the length check the rejection
    is the compilation-error one, after the execution stage alone. *)
Theorem compile_error_is_terminal (svc : Services) (exercise : Exercise)
    (code : string) (result : ExecutionResult) :
  execute_code svc code (language exercise) EmptyString = Some result ->
  success result = false ->
  truthy (compile_output result) = true ->
  let out := _validate_with_ai_and_execution svc exercise code in
  is_correct (fst out) = false /\
  ~ In StageAI (snd out) /\
  ~ In StageHeuristic (snd out) /\
  (too_short code = false ->
   out = (reject (ErreurCompilation (take 200 (compile_output result))),
          [StageExecute])) /\
  (forall available evaluate,
     _validate_with_ai_and_execution
       (mkServices (execute_code svc) available evaluate) exercise code = out).
Proof.
  intros Hexec Hfail Hcomp out. subst out.
  unfold _validate_with_ai_and_execution.
  destruct (too_short code) eqn:Hshort.
  - split; [reflexivity |].
    split; [intros [] |]. split; [intros [] |].
    split; [intros H; discriminate H | reflexivity].
  - rewrite (run_execution_compile_error svc exercise code result Hexec Hfail Hcomp).
    cbn [has_compilation_error error_message fst snd is_correct reject].
    split; [reflexivity |].
    split; [intros [H | []]; discriminate H |].
    split; [intros [H | []]; discriminate H |].
    split; [reflexivity |].
    intros available evaluate.
    rewrite (run_execution_compile_error
               (mkServices (execute_code svc) available evaluate)
               exercise code result Hexec Hfail Hcomp).
    reflexivity.
Qed.

(** An oracle that accepts everything. *)
Definition lenient_oracle : AIResult := mkAIResult true 100 "ok" EmptyString "fine".

Definition broken_cpp : Exercise :=
  mkExercise 1 "cpp" "easy" "Print hello" "#include <iostream>".

Definition compile_failure : ExecutionResult :=
  mkExecutionResult false EmptyString EmptyString "error: expected primary-expression".

Lemma compile_error_is_terminal_witness :
  _validate_with_ai_and_execution
    (mkServices (fun _ _ _ => Some compile_failure) true
                (fun _ _ _ _ _ => Some lenient_oracle))
    broken_cpp "int main( { return 0"
  = (reject (ErreurCompilation "error: expected primary-expression"),
     [StageExecute]).
Proof.
  pose proof (compile_error_is_terminal
                (mkServices (fun _ _ _ => Some compile_failure) true
                            (fun _ _ _ _ _ => Some lenient_oracle))
                broken_cpp "int main( { return 0" compile_failure
                eq_refl eq_refl eq_refl) as (_ & _ & _ & Hout & _).
  exact (Hout eq_refl).
Defined.

(** The execution step on a runtime error of a language that is not
    browser-oriented: the flag is raised and nothing else happens. *)
Lemma run_execution_runtime_error svc exercise code result :
  browser_language exercise = false ->
  execute_code svc code (language exercise) EmptyString = Some result ->
  success result = false ->
  truthy (compile_output result) = false ->
  truthy (stderr result) = true ->
  run_execution svc exercise code
  = inr (mkLocals None false true (stderr result)).
Proof.
  intros Hlang Hexec Hfail Hcomp Herr. unfold run_execution.
  unfold browser_language in Hlang.
  rewrite Hexec, Hfail, Hcomp, Herr, Hlang. reflexivity.
Qed.

(** The flag [has_runtime_error] is never read: after a runtime error of
    such a language the submission is graded like one that was not
    executed at all. *)
Lemma runtime_error_is_graded svc exercise code result :
  too_short code = false ->
  browser_language exercise = false ->
  execute_code svc code (language exercise) EmptyString = Some result ->
  success result = false ->
  truthy (compile_output result) = false ->
  truthy (stderr result) = true ->
  _validate_with_ai_and_execution svc exercise code
  = grade svc exercise code None.
Proof.
  intros Hshort Hlang Hexec Hfail Hcomp Herr.
  unfold _validate_with_ai_and_execution, grade. rewrite Hshort.
  rewrite (run_execution_runtime_error svc exercise code result
             Hlang Hexec Hfail Hcomp Herr).
  reflexivity.
Qed.

Definition hello_python : Exercise :=
  mkExercise 2 "python" "easy" "Print hello" print_hello.

Definition name_error : ExecutionResult :=
  mkExecutionResult false EmptyString "NameError: name 'x' is not defined" EmptyString.

(** C1, at a failing input: a Python submission whose execution ends in
    a [NameError] reaches the oracle, and is accepted when the oracle
    says so; with no oracle it reaches the heuristic validator. *)
Theorem runtime_error_reaches_the_graders :
  _validate_with_ai_and_execution
    (mkServices (fun _ _ _ => Some name_error) true
                (fun _ _ _ _ _ => Some lenient_oracle))
    hello_python "print(x)"
  = (mkResult true (AIEvaluation "ok" EmptyString "fine" 100), [StageExecute; StageAI])
  /\
  snd (_validate_with_ai_and_execution
         (mkServices (fun _ _ _ => Some name_error) false
                     (fun _ _ _ _ _ => None))
         hello_python "print(x)")
  = [StageExecute; StageHeuristic].
Proof. split; reflexivity. Qed.

(** The sibling path: a runtime error of a browser-oriented language
    that names no browser API is rejected at once. *)
Lemma browser_language_runtime_error svc exercise code result :
  too_short code = false ->
  browser_language exercise = true ->
  execute_code svc code (language exercise) EmptyString = Some result ->
  success result = false ->
  truthy (compile_output result) = false ->
  truthy (stderr result) = true ->
  any_in browser_apis (stderr result) = false ->
  _validate_with_ai_and_execution svc exercise code
  = (reject (ErreurExecution (take 200 (stderr result))), [StageExecute]).
Proof.
  intros Hshort Hlang Hexec Hfail Hcomp Herr Hapi.
  unfold _validate_with_ai_and_execution, run_execution.
  unfold browser_language in Hlang.
  rewrite Hshort, Hexec, Hfail, Hcomp, Herr, Hlang, Hapi. reflexivity.
Qed.

End PipelineProofs.

(* ===================================================================== *)
(** * Properties of the endpoints that touch the ledger *)
(* ===================================================================== *)

Module EndpointProofs.
Import Views.
Local Open Scope Z_scope.

(** ** Repeat submissions *)

(** The points a response reports; none when the key is absent. *)
Definition awarded (r : Response) : Z :=
  match resp_points r with Some p => p | None => 0 end.

(** Successive authenticated submissions of one exercise, each with its
    own code and its own state of the external services. *)
Fixpoint submit_all (exercise : Exercise) (attempts : list (Services * string))
    (row : option Models.UserProgress)
  : list Response * option Models.UserProgress :=
  match attempts with
  | [] => ([], row)
  | (svc, code) :: rest =>
      let (r, row') := submit svc true exercise code row in
      let (rs, final) := submit_all exercise rest row' in
      (r :: rs, final)
  end.

Definition total_awarded (rs : list Response) : Z :=
  fold_right (fun r acc => awarded r + acc) 0 rs.

Lemma points_for_positive (difficulty : string) : 0 < points_for difficulty.
Proof.
  unfold points_for.
  repeat match goal with |- context [String.eqb ?a ?b] => destruct (String.eqb a b) end;
    lia.
Qed.

(** One submission of an exercise completed before. *)
Lemma submit_completed (svc : Services) (exercise : Exercise) (code : string)
    (row : option Models.UserProgress) :
  id exercise ∈ Models.completed_exercises (get_or_create row) ->
  let out := submit svc true exercise code row in
  resp_points (fst out) = Some 0 /\
  resp_already_completed (fst out) = Some true /\
  resp_total_points (fst out) = Some (Models.total_points (get_or_create row)) /\
  snd out = Some (get_or_create row).
Proof.
  intros Hin out. subst out. unfold submit. cbn [negb].
  rewrite (bool_decide_eq_true_2 _ Hin).
  destruct (is_correct _); cbn [fst snd resp_points resp_already_completed
                                resp_total_points]; repeat split.
Qed.

(** Any number of further submissions leave the row alone and report no
    points. *)
Lemma submit_all_completed (exercise : Exercise)
    (attempts : list (Services * string)) (progress : Models.UserProgress) :
  id exercise ∈ Models.completed_exercises progress ->
  snd (submit_all exercise attempts (Some progress)) = Some progress /\
  Forall (fun r => resp_points r = Some 0 /\ resp_already_completed r = Some true)
         (fst (submit_all exercise attempts (Some progress))).
Proof.
  intros Hin. induction attempts as [|[svc code] rest IH]; simpl.
  - split; [reflexivity | constructor].
  - pose proof (submit_completed svc exercise code (Some progress) Hin)
      as (Hp & Ha & _ & Hrow).
    destruct (submit svc true exercise code (Some progress)) as [r row'].
    simpl in Hp, Ha, Hrow. subst row'.
    destruct (submit_all exercise rest (Some progress)) as [rs final].
    simpl in IH |- *. destruct IH as [Hfinal Hall].
    split; [exact Hfinal | constructor; [split; assumption | exact Hall]].
Qed.

Lemma total_awarded_zero (rs : list Response) :
  Forall (fun r => resp_points r = Some 0 /\ resp_already_completed r = Some true) rs ->
  total_awarded rs = 0.
Proof.
  induction 1 as [|r rs' [Hr _] _ IHr]; simpl; [reflexivity |].
  unfold awarded. rewrite Hr, IHr. reflexivity.
Qed.

(** One submission of an exercise not completed before: either it is
    judged correct, the exercise joins the set and the points of its
    difficulty are added, or nothing changes. *)
Lemma submit_first_time (svc : Services) (exercise : Exercise) (code : string)
    (row : option Models.UserProgress) :
  id exercise ∉ Models.completed_exercises (get_or_create row) ->
  let out := submit svc true exercise code row in
  (exists after, snd out = Some after /\
     id exercise ∈ Models.completed_exercises after /\
     awarded (fst out) = points_for (difficulty exercise) /\
     Models.total_points after
     = Models.total_points (get_or_create row) + points_for (difficulty exercise))
  \/ (snd out = Some (get_or_create row) /\ awarded (fst out) = 0).
Proof.
  intros Hnot out. subst out. unfold submit. cbn [negb].
  rewrite (bool_decide_eq_false_2 _ Hnot).
  destruct (is_correct _).
  - left. eexists. split; [reflexivity |]. cbn. split; [set_solver |].
    split; reflexivity.
  - right. split; reflexivity.
Qed.

(** Over any run of submissions of one exercise, the points reported add
    up to what the ledger gained, and to no more than one award. *)
Lemma submit_all_awards_once (exercise : Exercise)
    (attempts : list (Services * string)) : forall row,
  let out := submit_all exercise attempts row in
  Models.total_points (get_or_create (snd out))
  = Models.total_points (get_or_create row) + total_awarded (fst out) /\
  0 <= total_awarded (fst out) <= points_for (difficulty exercise).
Proof.
  pose proof (points_for_positive (difficulty exercise)) as Hpos.
  induction attempts as [|[svc code] rest IH]; intros row; simpl.
  - split; simpl; lia.
  - destruct (decide (id exercise ∈ Models.completed_exercises (get_or_create row)))
      as [Hin | Hnot].
    + (* completed already: this one and all the rest award nothing *)
      pose proof (submit_completed svc exercise code row Hin) as (Hpts & _ & _ & Hrow).
      destruct (submit svc true exercise code row) as [r row']; simpl in *; subst row'.
      pose proof (submit_all_completed exercise rest (get_or_create row) Hin)
        as (Hfinal & Hall).
      destruct (submit_all exercise rest (Some (get_or_create row))) as [rs final].
      simpl in Hfinal, Hall |- *. subst final.
      rewrite (total_awarded_zero rs Hall).
      unfold awarded. rewrite Hpts. simpl. lia.
    + destruct (submit_first_time svc exercise code row Hnot)
        as [(after & Hrow & Hin & Haw & Htot) | (Hrow & Haw)];
        destruct (submit svc true exercise code row) as [r row']; simpl in *; subst row'.
      * pose proof (submit_all_completed exercise rest after Hin) as (Hfinal & Hall).
        destruct (submit_all exercise rest (Some after)) as [rs final].
        simpl in Hfinal, Hall |- *. subst final.
        rewrite Haw, (total_awarded_zero rs Hall). simpl. lia.
      * specialize (IH (Some (get_or_create row))).
        destruct (submit_all exercise rest (Some (get_or_create row))) as [rs final].
        simpl in IH |- *. rewrite Haw. lia.
Qed.

(** C4: a submission of an exercise already in the user's completed set
    returns points = 0 and already_completed = true whatever the verdict,
    and leaves the row (total points and completed set, hence the
    completion itself) as it was; and over any run of submissions of one
    exercise the points awarded add up to at most one award. *)
Theorem submit_repeat_is_idempotent :
  (forall svc exercise code progress,
     id exercise ∈ Models.completed_exercises progress ->
     let out := submit svc true exercise code (Some progress) in
     resp_points (fst out) = Some 0 /\
     resp_already_completed (fst out) = Some true /\
     snd out = Some progress /\
     (forall after, snd out = Some after ->
        Models.total_points after = Models.total_points progress /\
        Models.completed_exercises after = Models.completed_exercises progress /\
        id exercise ∈ Models.completed_exercises after)) /\
  (forall exercise attempts row,
     let out := submit_all exercise attempts row in
     Models.total_points (get_or_create (snd out))
     = Models.total_points (get_or_create row) + total_awarded (fst out) /\
     0 <= total_awarded (fst out) <= points_for (difficulty exercise)).
Proof.
  split.
  - intros svc exercise code progress Hin out.
    destruct (submit_completed svc exercise code (Some progress) Hin)
      as (Hp & Ha & _ & Hrow).
    fold out in Hp, Ha, Hrow. simpl in Hrow.
    split; [exact Hp |]. split; [exact Ha |]. split; [exact Hrow |].
    intros after Hafter. rewrite Hrow in Hafter. injection Hafter as <-.
    repeat split; exact Hin.
  - intros exercise attempts row. apply submit_all_awards_once.
Qed.

Definition sample_exercise : Exercise :=
  mkExercise 3 "python" "medium" "Sum a list" "print(sum(xs))".

Definition no_services : Services :=
  mkServices (fun _ _ _ => None) false (fun _ _ _ _ _ => None).

Lemma submit_repeat_is_idempotent_witness :
  let done := Models.mkUserProgress ∅ {[3%nat]} 0 1 30 0 None in
  let out := submit no_services true sample_exercise "oops!" (Some done) in
  resp_points (fst out) = Some 0 /\
  resp_already_completed (fst out) = Some true /\
  snd out = Some done.
Proof.
  intros done out.
  destruct (proj1 submit_repeat_is_idempotent no_services sample_exercise "oops!"
              done ltac:(vm_compute; reflexivity))
    as (Hp & Ha & Hrow & _).
  split; [exact Hp |]. split; [exact Ha | exact Hrow].
Defined.

(** ** Marking a video *)

(** C8 as stated fails: marking a video not yet completed leaves the XP
    counter and the level as they were.  Here XP is 95 at level 1; the
    claim wants XP 105 and the level of 105 XP, which [add_xp] computes
    as 2; the endpoint leaves XP at 95 and the level at 1, and adds the
    10 to the points total only. *)
Lemma mark_completed_leaves_xp :
  let before := Models.mkUserProgress ∅ ∅ 95 1 95 0 None in
  (7%nat ∉ Models.completed_videos before) /\
  exists after,
    snd (mark_completed true 7 (Some before)) = Some after /\
    7%nat ∈ Models.completed_videos after /\
    Models.xp after = 95 /\
    Models.xp after <> Models.xp before + 10 /\
    Models.level after = 1 /\
    Models.level after <> snd (Models.add_xp before 10) /\
    Models.total_points after = 105.
Proof.
  intros before. split; [set_solver |].
  eexists. split; [reflexivity |]. cbn.
  split; [set_solver |]. repeat split; intros H; discriminate H.
Qed.

(** C8, amended: marking a video not yet in the completed set adds it to
    the set and adds a flat 10 to the points total, leaving XP, level
    and everything else alone; marking a completed video changes
    nothing. *)
Theorem mark_completed_awards_points (video : nat)
    (row : option Models.UserProgress) :
  let progress := get_or_create row in
  let out := mark_completed true video row in
  (video ∉ Models.completed_videos progress ->
   fst out = VideoMarked (Models.total_points progress + 10) /\
   exists after, snd out = Some after /\
     Models.completed_videos after = {[video]} ∪ Models.completed_videos progress /\
     Models.total_points after = Models.total_points progress + 10 /\
     Models.xp after = Models.xp progress /\
     Models.level after = Models.level progress /\
     Models.completed_exercises after = Models.completed_exercises progress /\
     Models.streak_days after = Models.streak_days progress /\
     Models.last_activity_date after = Models.last_activity_date progress) /\
  (video ∈ Models.completed_videos progress ->
   out = (VideoAlreadyCompleted, Some progress)).
Proof.
  intros progress out. subst progress out. unfold mark_completed. cbn [negb].
  split; intros H.
  - rewrite (bool_decide_eq_false_2 _ H). cbn.
    split; [reflexivity |]. eexists. split; [reflexivity |]. cbn. repeat split.
  - rewrite (bool_decide_eq_true_2 _ H). reflexivity.
Qed.

Lemma mark_completed_awards_points_witness :
  let before := Models.mkUserProgress ∅ ∅ 95 1 95 0 None in
  fst (mark_completed true 7 (Some before)) = VideoMarked 105 /\
  mark_completed true 7 (snd (mark_completed true 7 (Some before)))
  = (VideoAlreadyCompleted, snd (mark_completed true 7 (Some before))).
Proof.
  intros before.
  destruct (mark_completed_awards_points 7 (Some before)) as [Hnew _].
  destruct (Hnew ltac:(set_solver)) as (Hresp & _).
  split; [exact Hresp |].
  destruct (mark_completed_awards_points 7 (snd (mark_completed true 7 (Some before))))
    as [_ Hold].
  exact (Hold ltac:(cbn; set_solver)).
Defined.

End EndpointProofs.

(* ===================================================================== *)
(** * Properties of the similarity fallback *)
(* ===================================================================== *)

Module SimilarityProofs.
Import PyStr GeminiService.

(** ** Normalisation *)

Lemma append_snoc (cur : string) (c : ascii) (rest : string) :
  ((cur ++ String c EmptyString) ++ rest = cur ++ String c rest)%string.
Proof.
  induction cur as [|a cur IH]; [reflexivity |].
  change (String a ((cur ++ String c EmptyString) ++ rest)
          = String a (cur ++ String c rest))%string.
  f_equal. exact IH.
Qed.

Lemma join_split_ws_aux (s : string) : forall cur,
  join_empty (split_ws_aux cur s) = (cur ++ remove_spaces s)%string.
Proof.
  induction s as [|c t IH]; intros cur; simpl.
  - destruct cur; reflexivity.
  - destruct (is_space c).
    + destruct cur as [|a cur']; simpl; rewrite IH; reflexivity.
    + rewrite IH. apply append_snoc.
Qed.

(** Joining the whitespace-separated pieces removes all whitespace. *)
Lemma join_split_ws (s : string) : join_empty (split_ws s) = remove_spaces s.
Proof. unfold split_ws. rewrite join_split_ws_aux. reflexivity. Qed.

Lemma clean_spec (s : string) : clean s = lower (remove_spaces s).
Proof. unfold clean. rewrite join_split_ws. reflexivity. Qed.

(** ** Counting matching positions *)

(** Spec-side reading of "positions at which the two strings hold
    identical characters". *)
Definition same_at (s t : string) (i : nat) : bool :=
  match String.get i s, String.get i t with
  | Some a, Some b => Ascii.eqb a b
  | _, _ => false
  end.

Definition matching_positions (s t : string) : nat :=
  List.length (List.filter (same_at s t) (List.seq 0 (Nat.max (len s) (len t)))).

(** ... "divided by the length of the longer string". *)
Definition match_ratio (s t : string) : Q :=
  (inject_Z (Z.of_nat (matching_positions s t))
   / inject_Z (Z.of_nat (Nat.max (len s) (len t))))%Q.

Lemma filter_none {A} (f : A -> bool) (l : list A) :
  (forall x, f x = false) -> List.filter f l = [].
Proof.
  intros Hf. induction l as [|x l IH]; simpl; [reflexivity |].
  rewrite Hf. exact IH.
Qed.

Lemma filter_ext_length {A} (f g : A -> bool) (l : list A) :
  (forall x, f x = g x) ->
  List.length (List.filter f l) = List.length (List.filter g l).
Proof.
  intros Hfg. induction l as [|x l IH]; simpl; [reflexivity |].
  rewrite Hfg. destruct (g x); simpl; rewrite IH; reflexivity.
Qed.

Lemma filter_map_length {A B} (f : B -> bool) (g : A -> B) (l : list A) :
  List.length (List.filter f (List.map g l))
  = List.length (List.filter (fun x => f (g x)) l).
Proof.
  induction l as [|x l IH]; simpl; [reflexivity |].
  destruct (f (g x)); simpl; rewrite IH; reflexivity.
Qed.

Lemma count_equal_cons a b s t :
  count_equal (String a s) (String b t)
  = ((if Ascii.eqb a b then 1 else 0) + count_equal s t)%nat.
Proof. unfold count_equal. simpl. destruct (Ascii.eqb a b); reflexivity. Qed.

(** The count over [zip] is the count of matching positions. *)
Lemma count_equal_matching (s : string) : forall t,
  count_equal s t = matching_positions s t.
Proof.
  induction s as [|a s IH]; intros t.
  - unfold matching_positions. rewrite filter_none; [reflexivity |].
    intros i. unfold same_at. destruct i; reflexivity.
  - destruct t as [|b t].
    + unfold matching_positions. rewrite filter_none; [reflexivity |].
      intros i. unfold same_at. destruct (String.get i (String a s)); reflexivity.
    + rewrite count_equal_cons, IH. unfold matching_positions.
      change (Nat.max (len (String a s)) (len (String b t)))
        with (S (Nat.max (len s) (len t))).
      set (n := Nat.max (len s) (len t)).
      change (List.seq 0 (S n)) with (0%nat :: List.seq 1 n).
      rewrite <- List.seq_shift.
      set (f := same_at (String a s) (String b t)).
      change (List.filter f (0%nat :: List.map S (List.seq 0 n)))
        with (if f 0%nat then 0%nat :: List.filter f (List.map S (List.seq 0 n))
              else List.filter f (List.map S (List.seq 0 n))).
      change (f 0%nat) with (Ascii.eqb a b).
      assert (Htail : List.length (List.filter f (List.map S (List.seq 0 n)))
                      = List.length (List.filter (same_at s t) (List.seq 0 n))).
      { rewrite filter_map_length. apply filter_ext_length. reflexivity. }
      destruct (Ascii.eqb a b); cbn [List.length]; rewrite Htail; reflexivity.
Qed.

Lemma count_equal_sym (s : string) : forall t, count_equal s t = count_equal t s.
Proof.
  induction s as [|a s IH]; intros [|b t]; try reflexivity.
  rewrite !count_equal_cons, IH, Ascii.eqb_sym. reflexivity.
Qed.

Lemma count_equal_le_l (s : string) : forall t, (count_equal s t <= len s)%nat.
Proof.
  induction s as [|a s IH]; intros [|b t]; try (unfold count_equal; simpl; lia).
  rewrite count_equal_cons. specialize (IH t). unfold len in *. simpl.
  destruct (Ascii.eqb a b); lia.
Qed.

Lemma count_equal_refl (s : string) : count_equal s s = len s.
Proof.
  induction s as [|a s IH]; [reflexivity |].
  rewrite count_equal_cons, IH, Ascii.eqb_refl. reflexivity.
Qed.

(** ** The similarity *)

Lemma Qgtb_lt (x y : Q) : Qgtb x y = true <-> (y < x)%Q.
Proof.
  unfold Qgtb. rewrite negb_true_iff. split.
  - intros H. apply Qnot_le_lt. intros Hle.
    apply Qle_bool_iff in Hle. congruence.
  - intros H. destruct (Qle_bool x y) eqn:E; [| reflexivity].
    apply Qle_bool_iff in E. exfalso. exact (Qlt_not_le _ _ H E).
Qed.

Lemma truthy_len (s : string) : truthy s = true <-> (0 < len s)%nat.
Proof. destruct s; unfold len; simpl; split; intros H; try lia; congruence. Qed.

(** The similarity is the ratio of matching positions. *)
Lemma similarity_is_match_ratio (s t : string) :
  (_calculate_similarity s t == match_ratio s t)%Q.
Proof.
  unfold _calculate_similarity, match_ratio.
  rewrite <- count_equal_matching.
  destruct s as [|a s]; [reflexivity |].
  destruct t as [|b t].
  - simpl. unfold count_equal. simpl. unfold Qdiv. rewrite Qmult_0_l. reflexivity.
  - reflexivity.
Qed.

Lemma similarity_sym (a b : string) :
  _calculate_similarity a b = _calculate_similarity b a.
Proof.
  unfold _calculate_similarity.
  rewrite (count_equal_sym a b), (Nat.max_comm (len a) (len b)), orb_comm.
  reflexivity.
Qed.

Lemma similarity_bounds (a b : string) :
  (0 <= _calculate_similarity a b <= 1)%Q.
Proof.
  unfold _calculate_similarity.
  destruct (negb (truthy a) || negb (truthy b)); [split; discriminate |].
  destruct (Nat.ltb_spec 0 (Nat.max (len a) (len b))) as [Hpos | _];
    [| split; discriminate].
  assert (Hq : (0 < inject_Z (Z.of_nat (Nat.max (len a) (len b))))%Q).
  { change 0%Q with (inject_Z 0). rewrite <- Zlt_Qlt. lia. }
  split.
  - apply Qle_shift_div_l; [exact Hq |]. rewrite Qmult_0_l.
    change 0%Q with (inject_Z 0). rewrite <- Zle_Qle. lia.
  - apply Qle_shift_div_r; [exact Hq |]. rewrite Qmult_1_l.
    rewrite <- Zle_Qle. pose proof (count_equal_le_l a b). lia.
Qed.

(** C9: the fallback normalises both codes (all whitespace removed,
    lowercased); a normalised submission shorter than 10 characters is
    rejected; otherwise the verdict is true exactly when the number of
    positions holding identical characters, divided by the length of the
    longer string, exceeds 0.7, and the reasoning carries that ratio. *)
Theorem basic_validation_decision (submitted_code solution_code : string) :
  let s := lower (remove_spaces submitted_code) in
  let r := lower (remove_spaces solution_code) in
  let v := _basic_validation submitted_code solution_code in
  ((len s < 10)%nat ->
     is_correct v = false /\ reasoning v = CodeLengthInsufficient) /\
  ((10 <= len s)%nat ->
     (is_correct v = true <-> (7 # 10 < match_ratio s r)%Q) /\
     exists q, (q == match_ratio s r)%Q /\
               reasoning v = if is_correct v then Similarity q
                             else SimilarityTooLow q).
Proof.
  intros s r v. subst s r v. unfold _basic_validation.
  rewrite !clean_spec.
  set (s := lower (remove_spaces submitted_code)).
  set (r := lower (remove_spaces solution_code)).
  split; intros Hlen.
  - destruct (Nat.ltb_spec (len s) 10); [split; reflexivity | lia].
  - destruct (Nat.ltb_spec (len s) 10); [lia |].
    pose proof (similarity_is_match_ratio s r) as Heq.
    destruct (Qgtb (_calculate_similarity s r) (7 # 10)) eqn:Hgt; cbn.
    + split.
      * split; [intros _ | reflexivity].
        rewrite <- Heq. apply Qgtb_lt. exact Hgt.
      * exists (_calculate_similarity s r). split; [exact Heq | reflexivity].
    + split.
      * split; [discriminate |].
        intros Hlt. rewrite <- Heq in Hlt. apply Qgtb_lt in Hlt. congruence.
      * exists (_calculate_similarity s r). split; [exact Heq | reflexivity].
Qed.

Lemma basic_validation_decision_witness :
  is_correct (_basic_validation "Print( 'Hello World' )" "print('hello world')") = true /\
  is_correct (_basic_validation "x = 1" "print('hello world')") = false.
Proof.
  pose proof (basic_validation_decision
                "Print( 'Hello World' )" "print('hello world')") as (_ & Hlong).
  pose proof (basic_validation_decision "x = 1" "print('hello world')") as (Hshort & _).
  split.
  - apply (Hlong ltac:(vm_compute; lia)). vm_compute. reflexivity.
  - apply (Hshort ltac:(vm_compute; lia)).
Defined.

(** C10 as stated fails in its last part: the length gate looks at the
    submission only, so a 10-character code against its 9-character
    prefix is accepted one way round and rejected the other. *)
Lemma basic_validation_not_symmetric :
  is_correct (_basic_validation "abcdefghij" "abcdefghi") = true /\
  is_correct (_basic_validation "abcdefghi" "abcdefghij") = false.
Proof. split; vm_compute; reflexivity. Qed.

(** C10, amended: the similarity lies in [0, 1] and does not depend on
    the order of its arguments; the fallback's decision does not depend
    on which code is the submission and which the reference when both
    normalised codes have at least 10 characters. *)
Theorem similarity_bounded_symmetric (a b : string) :
  (0 <= _calculate_similarity a b <= 1)%Q /\
  _calculate_similarity a b = _calculate_similarity b a /\
  ((10 <= len (clean a))%nat -> (10 <= len (clean b))%nat ->
   is_correct (_basic_validation a b) = is_correct (_basic_validation b a)).
Proof.
  split; [apply similarity_bounds |]. split; [apply similarity_sym |].
  intros Ha Hb. unfold _basic_validation.
  destruct (Nat.ltb_spec (len (clean a)) 10); [lia |].
  destruct (Nat.ltb_spec (len (clean b)) 10); [lia |].
  rewrite (similarity_sym (clean b) (clean a)).
  destruct (Qgtb _ _); reflexivity.
Qed.

Lemma similarity_bounded_symmetric_witness :
  is_correct (_basic_validation "abcdefghijk" "abcdefghij")
  = is_correct (_basic_validation "abcdefghij" "abcdefghijk").
Proof.
  destruct (similarity_bounded_symmetric "abcdefghijk" "abcdefghij") as (_ & _ & H).
  apply H; vm_compute; lia.
Defined.

End SimilarityProofs.

(* ===================================================================== *)
(** * The heuristic validators on the reference solution itself *)
(* ===================================================================== *)

Module ValidatorProofs.
Import PyStr Views.

(** The absolute gates of each validator, those that do not compare the
    submission with the reference: what the reference must satisfy on
    its own to be accepted when submitted as it is. *)
Definition passes_own_gates (exercise : Exercise) : bool :=
  let code := solution_code exercise in
  let language := lower (language exercise) in
  negb (too_short code) &&
  (if in_list language ["html"; "css"; "xml"] then true
   else if in_list language ["javascript"; "js"; "typescript"] then
     (2 <=? List.length (code_lines "//" code))%nat &&
     (any_in ["function"; "=>"; "const"; "let"; "var"] code
      || any_in ["if"; "for"; "while"; "return"; "console.log"; "alert"; "prompt"] code
      || any_in [".map"; ".filter"; ".reduce"; ".forEach"] code)
   else if String.eqb language "python" then
     (2 <=? List.length (code_lines "#" code))%nat &&
     any_in ["if"; "for"; "while"; "return"; "print"] code
   else if in_list language ["c++"; "cpp"] then
     (3 <=? List.length (code_lines "//" code))%nat &&
     contains "#include" code &&
     (negb (contains "int main" (lower code)) || contains "int main" code)
   else if String.eqb language "java" then
     (3 <=? List.length (code_lines "//" code))%nat &&
     contains "class" code &&
     (negb (contains "public static void main" (lower code))
      || contains "public static void main" code)
   else if String.eqb language "c" then
     (3 <=? List.length (code_lines "//" code))%nat &&
     contains "#include" code &&
     (negb (contains "int main" (lower code)) || contains "int main" code)
   else if String.eqb language "sql" then
     any_in ["SELECT"; "INSERT"; "UPDATE"; "DELETE"; "CREATE"] (upper code) &&
     (10 <? len (strip code))%nat
   else (15 <=? len (lower (remove_spaces code)))%nat).

(** Replaces every substring test and line count of the goal by a
    boolean variable and tries all their values. *)
Ltac abstract_tests :=
  repeat match goal with
         | |- context [contains ?k ?s] => generalize (contains k s); intro
         | |- context [any_in ?k ?s] => generalize (any_in k s); intro
         | |- context [Nat.leb ?n ?m] => generalize (Nat.leb n m); intro
         | |- context [Nat.ltb ?n ?m] => generalize (Nat.ltb n m); intro
         end.

Ltac try_all_bools :=
  repeat match goal with b : bool |- _ => destruct b end; reflexivity.

Lemma any_in_app (l1 l2 : list string) (s : string) :
  any_in (l1 ++ l2) s = any_in l1 s || any_in l2 s.
Proof. unfold any_in. apply existsb_app. Qed.

Lemma python_on_reference (exercise : Exercise) :
  is_correct (_validate_python exercise (solution_code exercise))
  = (2 <=? List.length (code_lines "#" (solution_code exercise)))%nat
    && any_in ["if"; "for"; "while"; "return"; "print"] (solution_code exercise).
Proof.
  unfold _validate_python. rewrite Nat.ltb_antisym.
  abstract_tests. try_all_bools.
Qed.

Lemma javascript_on_reference (exercise : Exercise) :
  is_correct (_validate_javascript exercise (solution_code exercise))
  = (2 <=? List.length (code_lines "//" (solution_code exercise)))%nat
    && (any_in ["function"; "=>"; "const"; "let"; "var"] (solution_code exercise)
        || any_in ["if"; "for"; "while"; "return"; "console.log"; "alert"; "prompt"]
                  (solution_code exercise)
        || any_in [".map"; ".filter"; ".reduce"; ".forEach"] (solution_code exercise)).
Proof.
  unfold _validate_javascript. rewrite Nat.ltb_antisym.
  change ["function"; "=>"; "const"; "let"; "var"]
    with (["function"; "=>"] ++ ["const"; "let"; "var"]).
  change ["for"; "while"; ".map"; ".foreach"; ".filter"; ".reduce"]
    with (["for"; "while"; ".map"; ".foreach"] ++ [".filter"; ".reduce"]).
  rewrite !any_in_app.
  abstract_tests. try_all_bools.
Qed.

Lemma cpp_on_reference (exercise : Exercise) :
  is_correct (_validate_cpp exercise (solution_code exercise))
  = (3 <=? List.length (code_lines "//" (solution_code exercise)))%nat
    && contains "#include" (solution_code exercise)
    && (negb (contains "int main" (lower (solution_code exercise)))
        || contains "int main" (solution_code exercise)).
Proof.
  unfold _validate_cpp. rewrite Nat.ltb_antisym.
  abstract_tests. try_all_bools.
Qed.

Lemma java_on_reference (exercise : Exercise) :
  is_correct (_validate_java exercise (solution_code exercise))
  = (3 <=? List.length (code_lines "//" (solution_code exercise)))%nat
    && contains "class" (solution_code exercise)
    && (negb (contains "public static void main" (lower (solution_code exercise)))
        || contains "public static void main" (solution_code exercise)).
Proof.
  unfold _validate_java. rewrite Nat.ltb_antisym.
  abstract_tests. try_all_bools.
Qed.

Lemma c_on_reference (exercise : Exercise) :
  is_correct (_validate_c exercise (solution_code exercise))
  = (3 <=? List.length (code_lines "//" (solution_code exercise)))%nat
    && contains "#include" (solution_code exercise)
    && (negb (contains "int main" (lower (solution_code exercise)))
        || contains "int main" (solution_code exercise)).
Proof.
  unfold _validate_c. rewrite Nat.ltb_antisym.
  abstract_tests. try_all_bools.
Qed.

Lemma sql_on_reference (exercise : Exercise) :
  is_correct (_validate_sql exercise (solution_code exercise))
  = any_in ["SELECT"; "INSERT"; "UPDATE"; "DELETE"; "CREATE"]
           (upper (solution_code exercise))
    && (10 <? len (strip (solution_code exercise)))%nat.
Proof.
  unfold _validate_sql, any_in. cbn [existsb].
  abstract_tests. try_all_bools.
Qed.

Lemma html_on_reference (exercise : Exercise) :
  is_correct (_validate_html_css exercise (solution_code exercise)) = true.
Proof.
  unfold _validate_html_css.
  rewrite difference_diag_L, size_empty. reflexivity.
Qed.

Lemma generic_on_reference (exercise : Exercise) :
  is_correct (_validate_generic exercise (solution_code exercise))
  = (15 <=? len (lower (remove_spaces (solution_code exercise))))%nat.
Proof.
  unfold _validate_generic.
  rewrite SimilarityProofs.join_split_ws, SimilarityProofs.count_equal_refl.
  set (c := lower (remove_spaces (solution_code exercise))).
  rewrite Nat.ltb_antisym.
  destruct (Nat.leb_spec 15 (len c)) as [Hlen | Hlen]; [| reflexivity].
  cbn [negb].
  replace (Nat.max (len c) 1) with (len c) by lia.
  assert (Hgt : GeminiService.Qgtb
                  (inject_Z (Z.of_nat (len c)) / inject_Z (Z.of_nat (len c))) (7 # 10)
                = true).
  { apply SimilarityProofs.Qgtb_lt.
    assert (Hne : ~ (inject_Z (Z.of_nat (len c)) == 0)%Q).
    { change 0%Q with (inject_Z 0). rewrite inject_Z_injective. lia. }
    unfold Qdiv. rewrite (Qmult_inv_r _ Hne). reflexivity. }
  rewrite Hgt. reflexivity.
Qed.

(** C3 as stated fails at its own example: the exact one-line reference
    [print("Hello, World!")] of a Python exercise is rejected as too
    short, the validator asking for two lines that are neither blank nor
    comments. *)
Lemma one_line_reference_rejected :
  let exercise := mkExercise 1 "python" "easy" "Print hello world" print_hello in
  _validate_python exercise (solution_code exercise) = reject PyTropCourt /\
  is_correct (_validate_solution_intelligent exercise (solution_code exercise)) = false.
Proof. split; vm_compute; reflexivity. Qed.

(** C3, amended: a submission identical to the reference solution is
    accepted by the heuristic validator of its language exactly when the
    reference passes that validator's own gates: at least 5 characters
    once stripped, and
    - markup: nothing more;
    - JavaScript: two lines that are neither blank nor comments, and a
      function, logic or array-method keyword;
    - Python: two such lines and one of if, for, while, return, print;
    - C++ and C: three such lines, an #include, and [int main] written
      in lower case if it occurs at all;
    - Java: three such lines, [class], and the main signature written in
      that case if it occurs at all;
    - SQL: one of SELECT, INSERT, UPDATE, DELETE, CREATE and more than 10
      characters once stripped;
    - any other language: 15 characters once whitespace is removed. *)
Theorem reference_accepted_iff_own_gates (exercise : Exercise) :
  is_correct (_validate_solution_intelligent exercise (solution_code exercise))
  = passes_own_gates exercise.
Proof.
  unfold _validate_solution_intelligent, passes_own_gates.
  destruct (too_short (solution_code exercise)); [reflexivity |].
  cbn [negb andb].
  destruct (in_list _ ["html"; "css"; "xml"]); [apply html_on_reference |].
  destruct (in_list _ ["javascript"; "js"; "typescript"]);
    [apply javascript_on_reference |].
  destruct (String.eqb _ "python"); [apply python_on_reference |].
  destruct (in_list _ ["c++"; "cpp"]); [apply cpp_on_reference |].
  destruct (String.eqb _ "java"); [apply java_on_reference |].
  destruct (String.eqb _ "c"); [apply c_on_reference |].
  destruct (String.eqb _ "sql"); [apply sql_on_reference |].
  apply generic_on_reference.
Qed.

(** Two-line references that pass. *)
Example two_line_python_reference_accepted :
  is_correct (_validate_solution_intelligent
                (mkExercise 1 "python" "easy" "Print hello world"
                   ("message = 'Hello, World!'" ++ String newline "print(message)"))
                ("message = 'Hello, World!'" ++ String newline "print(message)"))
  = true.
Proof. vm_compute. reflexivity. Qed.

End ValidatorProofs.

(* ===================================================================== *)
(** * Properties of the sandbox client *)
(* ===================================================================== *)

Module Judge0Proofs.
Import PyStr Judge0Service.

(** ** Stripping *)

Lemma rstrip_cons (c : ascii) (t : string) :
  rstrip (String c t)
  = match rstrip t with
    | EmptyString => if is_space c then EmptyString else String c EmptyString
    | String _ _ as t' => String c t'
    end.
Proof. reflexivity. Qed.

Lemma rstrip_idempotent (s : string) : rstrip (rstrip s) = rstrip s.
Proof.
  induction s as [|c t IH]; [reflexivity |].
  rewrite rstrip_cons. destruct (rstrip t) as [|d r] eqn:Hr.
  - destruct (is_space c) eqn:Hc; [reflexivity |].
    rewrite rstrip_cons. cbn [rstrip]. rewrite Hc. reflexivity.
  - rewrite rstrip_cons, IH. reflexivity.
Qed.

Lemma lstrip_head (s : string) :
  match lstrip s with
  | EmptyString => True
  | String c _ => is_space c = false
  end.
Proof.
  induction s as [|c t IH]; [exact I |].
  cbn [lstrip]. destruct (is_space c) eqn:Hc; [exact IH | exact Hc].
Qed.

Lemma rstrip_keeps_head (c : ascii) (t : string) :
  is_space c = false -> exists r, rstrip (String c t) = String c r.
Proof.
  intros Hc. rewrite rstrip_cons. destruct (rstrip t) as [|d r].
  - rewrite Hc. eexists. reflexivity.
  - eexists. reflexivity.
Qed.

(** [strip] is idempotent. *)
Lemma strip_idempotent (s : string) : strip (strip s) = strip s.
Proof.
  unfold strip. pose proof (lstrip_head s) as Hhead.
  destruct (lstrip s) as [|c t]; [reflexivity |].
  destruct (rstrip_keeps_head c t Hhead) as [r Hr].
  rewrite Hr. cbn [lstrip]. rewrite Hhead, <- Hr.
  apply rstrip_idempotent.
Qed.

Lemma or_empty_strip_stripped (x : option string) :
  strip (or_empty_strip x) = or_empty_strip x.
Proof. destruct x; [apply strip_idempotent | reflexivity]. Qed.

Lemma format_result_success (result : RawResult) :
  f_success (_format_result result) = true
  <-> status_id_of (raw_status result) = Some 3%Z.
Proof.
  unfold _format_result. cbn.
  destruct (status_id_of (raw_status result)) as [k|]; cbn.
  - rewrite Z.eqb_eq. split; [intros -> | intros [= ->]]; reflexivity.
  - split; discriminate.
Qed.

Lemma format_result_stdout_stripped (result : RawResult) :
  strip (f_stdout (_format_result result)) = f_stdout (_format_result result).
Proof. apply or_empty_strip_stripped. Qed.

(** X1: a formatted result succeeds exactly when the status id is 3,
    which is also exactly when its message is the success one; an absent
    or [null] text reads as the empty string; and the three texts are
    stripped, so stripping them again changes nothing. *)
Theorem format_result_normalises (result : RawResult) :
  let f := _format_result result in
  (f_success f = true <-> status_id_of (raw_status result) = Some 3%Z) /\
  (f_success f = true <-> f_message f = ExecutedSuccessfully) /\
  (raw_stdout result = None -> f_stdout f = EmptyString) /\
  (raw_stderr result = None -> f_stderr f = EmptyString) /\
  (raw_compile_output result = None -> f_compile_output f = EmptyString) /\
  strip (f_stdout f) = f_stdout f /\
  strip (f_stderr f) = f_stderr f /\
  strip (f_compile_output f) = f_compile_output f.
Proof.
  intros f. subst f.
  split; [apply format_result_success |].
  unfold _format_result. cbn.
  split.
  { destruct (id_is (status_id_of (raw_status result)) 3); [split; reflexivity |].
    split; [discriminate |].
    repeat match goal with |- context [if ?b then _ else _] => destruct b end;
      discriminate. }
  split; [intros ->; reflexivity |].
  split; [intros ->; reflexivity |].
  split; [intros ->; reflexivity |].
  repeat split; apply or_empty_strip_stripped.
Qed.

Lemma format_result_normalises_witness :
  f_stdout (_format_result
              (mkRawResult (StatusObject (Some 3%Z) (Some "Accepted"))
                           (Some " 42 ") None None)) = "42" /\
  f_stderr (_format_result
              (mkRawResult (StatusObject (Some 3%Z) (Some "Accepted"))
                           (Some " 42 ") None None)) = EmptyString.
Proof.
  destruct (format_result_normalises
              (mkRawResult (StatusObject (Some 3%Z) (Some "Accepted"))
                           (Some " 42 ") None None))
    as (_ & _ & _ & Herr & _).
  split; [reflexivity | exact (Herr eq_refl)].
Defined.

(** ** Polling *)

(** A poll that makes the loop go round again: a [RequestException], a
    status code other than 200, or a status id of 1 or 2. *)
Definition pending (o : GetOutcome) : bool :=
  match o with
  | GetRequestException => true
  | GetOtherException => false
  | GetResponse status_code body =>
      negb (status_code =? 200)%Z ||
      match raw_status body with
      | StatusNull => false
      | st => id_in (status_id_of st) [1; 2]%Z
      end
  end.

(** A poll that ends the loop with a result. *)
Definition terminal (o : GetOutcome) : option RawResult :=
  match o with
  | GetResponse status_code body =>
      if (status_code =? 200)%Z then
        match raw_status body with
        | StatusNull => None
        | st => if id_in (status_id_of st) [1; 2]%Z then None else Some body
        end
      else None
  | _ => None
  end.

Definition polls (token : string) (from count : nat) : list NetCall :=
  List.map (CallGet token) (List.seq from count).

Lemma wait_loop_pending_step net token attempt remaining :
  pending (get net token attempt) = true ->
  wait_loop net token attempt (S remaining)
  = (fst (wait_loop net token (S attempt) remaining),
     CallGet token attempt :: snd (wait_loop net token (S attempt) remaining)).
Proof.
  intros Hp. cbn [wait_loop].
  destruct (wait_loop net token (S attempt) remaining) as [r calls].
  unfold pending in Hp.
  destruct (get net token attempt) as [| |code body]; [reflexivity | discriminate |].
  destruct (code =? 200)%Z; cbn [negb orb] in *; [| reflexivity].
  destruct (raw_status body); try discriminate; cbn in Hp |- *; rewrite Hp; reflexivity.
Qed.

Lemma wait_loop_terminal_step net token attempt remaining body :
  terminal (get net token attempt) = Some body ->
  wait_loop net token attempt (S remaining)
  = (Returned (Formatted (_format_result body)), [CallGet token attempt]).
Proof.
  intros Ht. cbn [wait_loop].
  destruct (wait_loop net token (S attempt) remaining) as [r calls].
  unfold terminal in Ht.
  destruct (get net token attempt) as [| |code b]; try discriminate.
  destruct (code =? 200)%Z; [| discriminate]. cbn [negb].
  destruct (raw_status b) eqn:Hst; try discriminate;
    destruct (id_in _ _) eqn:Hid; try discriminate;
    injection Ht as <-; reflexivity.
Qed.

(** The polls are numbered from the first attempt on; there are at most
    as many as attempts allowed, and at least one if any is allowed. *)
Lemma wait_loop_calls net token (remaining : nat) : forall attempt,
  exists n, (n <= remaining)%nat /\ ((0 < remaining)%nat -> (0 < n)%nat) /\
            snd (wait_loop net token attempt remaining) = polls token attempt n.
Proof.
  induction remaining as [|remaining IH]; intros attempt.
  - exists 0%nat. split; [lia |]. split; [lia | reflexivity].
  - destruct (IH (S attempt)) as (n & Hn & _ & Hcalls).
    assert (Hone : polls token attempt 1 = [CallGet token attempt]) by reflexivity.
    assert (Hmore : CallGet token attempt
                      :: snd (wait_loop net token (S attempt) remaining)
                    = polls token attempt (S n)).
    { rewrite Hcalls. reflexivity. }
    cbn [wait_loop].
    destruct (wait_loop net token (S attempt) remaining) as [r calls].
    cbn [snd] in Hmore.
    destruct (get net token attempt) as [| |code body].
    + exists (S n). split; [lia |]. split; [lia | exact Hmore].
    + exists 1%nat. split; [lia |]. split; [lia | exact Hone].
    + destruct (negb (code =? 200)%Z).
      * exists (S n). split; [lia |]. split; [lia | exact Hmore].
      * destruct (raw_status body);
          try (destruct (id_in _ _));
          first [ exists (S n); split; [lia |]; split; [lia | exact Hmore]
                | exists 1%nat; split; [lia |]; split; [lia | exact Hone] ].
Qed.

(** All polls pending: the loop gives up after the last attempt. *)
Lemma wait_loop_all_pending net token (remaining : nat) : forall attempt,
  (forall j, (attempt <= j < attempt + remaining)%nat ->
             pending (get net token j) = true) ->
  wait_loop net token attempt remaining
  = (Returned (Failed ExecutionTimeout), polls token attempt remaining).
Proof.
  induction remaining as [|remaining IH]; intros attempt Hall; [reflexivity |].
  rewrite wait_loop_pending_step by (apply Hall; lia).
  rewrite IH by (intros j Hj; apply Hall; lia). reflexivity.
Qed.

(** The first poll that is not pending and carries a result ends the
    loop with that result, formatted. *)
Lemma wait_loop_first_terminal net token (k : nat) : forall attempt remaining body,
  (k < remaining)%nat ->
  (forall j, (attempt <= j < attempt + k)%nat -> pending (get net token j) = true) ->
  terminal (get net token (attempt + k)) = Some body ->
  wait_loop net token attempt remaining
  = (Returned (Formatted (_format_result body)), polls token attempt (S k)).
Proof.
  induction k as [|k IH]; intros attempt remaining body Hk Hpend Hterm.
  - destruct remaining as [|remaining]; [lia |].
    rewrite Nat.add_0_r in Hterm.
    apply wait_loop_terminal_step. exact Hterm.
  - destruct remaining as [|remaining]; [lia |].
    rewrite wait_loop_pending_step by (apply Hpend; lia).
    rewrite (IH (S attempt) remaining body).
    + reflexivity.
    + lia.
    + intros j Hj. apply Hpend. lia.
    + replace (S attempt + k)%nat with (attempt + S k)%nat by lia. exact Hterm.
Qed.

(** A poll that ends the loop with an exception the loop does not
    catch. *)
Definition raising (o : GetOutcome) : bool :=
  match o with
  | GetOtherException => true
  | GetResponse status_code body =>
      (status_code =? 200)%Z &&
      match raw_status body with StatusNull => true | _ => false end
  | GetRequestException => false
  end.

Lemma poll_cases (o : GetOutcome) :
  pending o = true \/ (exists body, terminal o = Some body) \/ raising o = true.
Proof.
  destruct o as [| |code body]; cbn -[id_in];
    [left; reflexivity | right; right; reflexivity |].
  destruct (code =? 200)%Z; cbn -[id_in]; [| left; reflexivity].
  destruct (raw_status body) as [| |i d]; cbn -[id_in].
  - right; left; eexists; reflexivity.
  - right; right; reflexivity.
  - destruct (id_in i [1; 2]%Z); [left; reflexivity | right; left; eexists; reflexivity].
Qed.

Lemma wait_loop_raising_step net token attempt remaining :
  raising (get net token attempt) = true ->
  wait_loop net token attempt (S remaining) = (Raised, [CallGet token attempt]).
Proof.
  intros Hr. cbn [wait_loop].
  destruct (wait_loop net token (S attempt) remaining) as [r calls].
  unfold raising in Hr.
  destruct (get net token attempt) as [| |code body]; [discriminate | reflexivity |].
  destruct (code =? 200)%Z; [| discriminate]. cbn [negb].
  destruct (raw_status body); try discriminate. reflexivity.
Qed.

(** Whatever the loop returns as a formatted result was polled. *)
Lemma wait_loop_formatted net token (remaining : nat) : forall attempt f,
  fst (wait_loop net token attempt remaining) = Returned (Formatted f) ->
  exists k body, (attempt <= k < attempt + remaining)%nat /\
                 terminal (get net token k) = Some body /\
                 f = _format_result body.
Proof.
  induction remaining as [|remaining IH]; intros attempt f; [discriminate |].
  destruct (poll_cases (get net token attempt)) as [Hp | [[body Ht] | Hr]].
  - rewrite wait_loop_pending_step by exact Hp. cbn [fst]. intros H.
    destruct (IH (S attempt) f H) as (k & body & Hk & Ht & Hf).
    exists k, body. split; [lia | split; assumption].
  - rewrite (wait_loop_terminal_step net token attempt remaining body Ht).
    cbn [fst]. intros [= <-]. exists attempt, body.
    split; [lia | split; [exact Ht | reflexivity]].
  - rewrite wait_loop_raising_step by exact Hr. discriminate.
Qed.

(** ** The whole call *)

Lemma terminal_response (o : GetOutcome) (body : RawResult) :
  terminal o = Some body ->
  o = GetResponse 200 body /\
  id_in (status_id_of (raw_status body)) [1; 2]%Z = false.
Proof.
  destruct o as [| |code b]; try discriminate. cbn -[id_in].
  destruct (Z.eqb_spec code 200) as [-> |]; [| discriminate].
  destruct (raw_status b) as [| |i d] eqn:Hst; try discriminate;
    destruct (id_in _ _) eqn:Hid; try discriminate;
    intros [= <-]; rewrite Hst; (split; [reflexivity | exact Hid]).
Qed.

(** Every formatted result [execute_code] returns is the formatting of
    a body polled within the first 10 attempts. *)
Lemma execute_code_formatted requests_available net source language input expected f :
  fst (execute_code requests_available net source language input expected)
  = Formatted f ->
  exists token k body, (k < 10)%nat /\
    terminal (get net token k) = Some body /\ f = _format_result body.
Proof.
  unfold execute_code.
  destruct requests_available; cbn [negb]; [| discriminate].
  destruct (LANGUAGE_IDS !! language) as [lid|]; [| discriminate].
  destruct (lid =? 0)%Z; [discriminate |].
  destruct (post net _) as [| | | |code body]; try discriminate.
  destruct (negb _); [discriminate |].
  destruct body as [[token|]|]; try discriminate.
  destruct (negb (truthy token)); [discriminate |].
  unfold _wait_for_result.
  destruct (wait_loop net token 0 10) as [e calls] eqn:Hw.
  destruct e as [r|]; [| discriminate]. cbn [fst]. intros ->.
  destruct (wait_loop_formatted net token 10 0 f) as (k & body & Hk & Ht & Hf).
  { rewrite Hw. reflexivity. }
  exists token, k, body. split; [lia | split; assumption].
Qed.

(** X2: [execute_code] makes no network call at all, or one submission
    of the source with the id of its language, or that one submission,
    answered 200 or 201 with a non-empty token, followed by at least one
    and at most 10 polls of that very token, numbered 0, 1, 2, ... in
    order. *)
Theorem execute_code_calls_bounded (requests_available : bool) (net : Network)
    (source language input : string) (expected : option string) :
  let calls :=
    snd (execute_code requests_available net source language input expected) in
  calls = [] \/
  exists lid,
    LANGUAGE_IDS !! language = Some lid /\
    let submission := mkSubmission source lid input (expected_field expected) in
    calls = [CallPost submission] \/
    exists code token n,
      post net submission = PostResponse code (Some (Some token)) /\
      (code = 200 \/ code = 201)%Z /\ truthy token = true /\
      (1 <= n <= 10)%nat /\
      calls = CallPost submission :: polls token 0 n.
Proof.
  unfold execute_code.
  destruct requests_available; cbn [negb]; [| left; reflexivity].
  destruct (LANGUAGE_IDS !! language) as [lid|]; [| left; reflexivity].
  destruct (lid =? 0)%Z; [left; reflexivity |].
  right. exists lid. split; [reflexivity |]. cbv zeta.
  destruct (post net _) as [| | | |code body] eqn:Hpost; try (left; reflexivity).
  destruct (negb _) eqn:Hcode; [left; reflexivity |].
  destruct body as [[token|]|]; try (left; reflexivity).
  destruct (negb (truthy token)) eqn:Htok; [left; reflexivity |].
  right. unfold _wait_for_result.
  destruct (wait_loop_calls net token 10 0) as (n & Hn & Hpos & Hcalls).
  destruct (wait_loop net token 0 10) as [e calls]. cbn [snd] in Hcalls.
  exists code, token, n.
  split; [reflexivity |].
  split.
  { apply negb_false_iff, orb_true_iff in Hcode.
    destruct Hcode as [H | H]; apply Z.eqb_eq in H; [left | right]; exact H. }
  split; [apply negb_false_iff; exact Htok |].
  split; [split; [apply Hpos; lia | exact Hn] |].
  destruct e; cbn [snd app]; rewrite Hcalls; reflexivity.
Qed.

(** The submission went through: the service is there, the language is
    known, the [POST] answered 200 or 201 with a non-empty token. *)
Definition submitted (requests_available : bool) (net : Network)
    (source language input : string) (expected : option string)
    (submission : Submission) (token : string) : Prop :=
  requests_available = true /\
  (exists lid, LANGUAGE_IDS !! language = Some lid /\
     submission = mkSubmission source lid input (expected_field expected)) /\
  (exists code, post net submission = PostResponse code (Some (Some token)) /\
     (code = 200 \/ code = 201)%Z) /\
  truthy token = true.

Lemma language_ids_nonzero language lid :
  LANGUAGE_IDS !! language = Some lid -> (lid =? 0)%Z = false.
Proof.
  intros H. apply Z.eqb_neq. intros ->.
  apply elem_of_list_to_map_2 in H.
  repeat (apply elem_of_cons in H as [H | H]; [discriminate H |]).
  inversion H.
Qed.

Lemma execute_code_submitted requests_available net source language input expected
    submission token :
  submitted requests_available net source language input expected submission token ->
  execute_code requests_available net source language input expected
  = match _wait_for_result net token with
    | (Returned r, calls) => (r, CallPost submission :: calls)
    | (Raised, calls) => (Failed UnexpectedError, CallPost submission :: calls)
    end.
Proof.
  intros (-> & (lid & Hlid & ->) & (code & Hpost & Hcode) & Htok).
  unfold execute_code. cbn [negb].
  rewrite Hlid, (language_ids_nonzero language lid Hlid), Hpost.
  assert (Hok : negb ((code =? 200)%Z || (code =? 201)%Z) = false).
  { destruct Hcode as [-> | ->]; reflexivity. }
  rewrite Hok, Htok. cbn [negb].
  destruct (_wait_for_result net token) as [[r|] calls]; reflexivity.
Qed.

(** X3: once the code is submitted, if each of the 10 polls is pending
    (a request error, a status code other than 200, or a status id of 1
    or 2) the client gives up with the execution-timeout failure after
    exactly those 10 polls; and if the first poll that is not pending
    carries a finished result, the client returns that result,
    formatted, and polls no further. *)
Theorem execute_code_polls_until_terminal (requests_available : bool)
    (net : Network) (source language input : string) (expected : option string)
    (submission : Submission) (token : string) :
  submitted requests_available net source language input expected submission token ->
  ((forall j, (j < 10)%nat -> pending (get net token j) = true) ->
   execute_code requests_available net source language input expected
   = (Failed ExecutionTimeout, CallPost submission :: polls token 0 10)) /\
  (forall k body,
     (k < 10)%nat ->
     (forall j, (j < k)%nat -> pending (get net token j) = true) ->
     terminal (get net token k) = Some body ->
     execute_code requests_available net source language input expected
     = (Formatted (_format_result body),
        CallPost submission :: polls token 0 (S k))).
Proof.
  intros Hsub.
  rewrite (execute_code_submitted _ _ _ _ _ _ _ _ Hsub). unfold _wait_for_result.
  split.
  - intros Hall.
    rewrite (wait_loop_all_pending net token 10 0) by (intros j Hj; apply Hall; lia).
    reflexivity.
  - intros k body Hk Hpend Hterm.
    rewrite (wait_loop_first_terminal net token k 0 10 body Hk)
      by (try (intros j Hj; apply Hpend; lia); exact Hterm).
    reflexivity.
Qed.

Definition always_pending : Network :=
  mkNetwork (fun _ => PostResponse 201 (Some (Some "tok")))
            (fun _ _ => GetResponse 200
                          (mkRawResult (StatusObject (Some 2%Z) (Some "Processing"))
                                       None None None)).

Lemma execute_code_polls_until_terminal_witness :
  execute_code true always_pending "print(1)" "python" EmptyString None
  = (Failed ExecutionTimeout,
     CallPost (mkSubmission "print(1)" 71 EmptyString None) :: polls "tok" 0 10).
Proof.
  apply (execute_code_polls_until_terminal true always_pending "print(1)" "python"
           EmptyString None (mkSubmission "print(1)" 71 EmptyString None) "tok").
  - split; [reflexivity |].
    split; [exists 71%Z; split; [vm_compute; reflexivity | reflexivity] |].
    split; [exists 201%Z; split; [reflexivity | right; reflexivity] | reflexivity].
  - intros j _. reflexivity.
Defined.

(** X4: a result with [success] true only ever comes from a poll, among
    the first 10, that answered 200 with status id 3. *)
Theorem execute_code_success_was_accepted (requests_available : bool)
    (net : Network) (source language input : string) (expected : option string) :
  result_success
    (fst (execute_code requests_available net source language input expected))
  = true ->
  exists token k body,
    (k < 10)%nat /\ get net token k = GetResponse 200 body /\
    status_id_of (raw_status body) = Some 3%Z.
Proof.
  destruct (fst (execute_code requests_available net source language input expected))
    as [x | f] eqn:Hres; cbn [result_success]; [discriminate |].
  intros Hsucc.
  destruct (execute_code_formatted _ _ _ _ _ _ f Hres) as (token & k & body & Hk & Ht & ->).
  destruct (terminal_response _ _ Ht) as [Hget _].
  exists token, k, body. split; [exact Hk |]. split; [exact Hget |].
  apply format_result_success. exact Hsucc.
Qed.

Definition accepts_at_once : Network :=
  mkNetwork (fun _ => PostResponse 201 (Some (Some "tok")))
            (fun _ _ => GetResponse 200
                          (mkRawResult (StatusObject (Some 3%Z) (Some "Accepted"))
                                       (Some "1") None None)).

Lemma execute_code_success_was_accepted_witness :
  exists token k body,
    (k < 10)%nat /\ get accepts_at_once token k = GetResponse 200 body /\
    status_id_of (raw_status body) = Some 3%Z.
Proof.
  apply (execute_code_success_was_accepted true accepts_at_once "print(1)" "python"
           EmptyString None).
  vm_compute. reflexivity.
Defined.

(** The texts of anything [execute_code] returns are stripped. *)
Lemma execute_code_stdout_stripped requests_available net source language input expected :
  let r := fst (execute_code requests_available net source language input expected) in
  strip (result_stdout r) = result_stdout r.
Proof.
  intros r. subst r.
  destruct (fst (execute_code requests_available net source language input expected))
    as [x | f] eqn:Hres; [reflexivity |].
  destruct (execute_code_formatted _ _ _ _ _ _ f Hres) as (_ & _ & body & _ & _ & ->).
  apply format_result_stdout_stripped.
Qed.

(** X5: [validate_solution] makes the network calls of [execute_code]
    run with the expected output.  When that run did not succeed it
    returns the run's result as it is and adds nothing.  When it did, it
    adds a verdict that is true exactly when the run's stdout equals the
    expected output with its surrounding whitespace removed, writes the
    matching message over the result's message and leaves every other
    member alone; a false verdict comes with the stripped expected
    output and the run's stdout. *)
Theorem validate_solution_compares_stripped (requests_available : bool)
    (net : Network) (source language expected input : string) :
  let run := execute_code requests_available net source language input
                          (Some expected) in
  let out := validate_solution requests_available net source language expected input in
  snd out = snd run /\
  (result_success (fst run) = false ->
   fst (fst out) = fst run /\ snd (fst out) = None) /\
  (result_success (fst run) = true ->
   exists f v,
     fst run = Formatted f /\ snd (fst out) = Some v /\
     (validated v = true <-> f_stdout f = strip expected) /\
     fst (fst out)
     = Formatted (with_message f (if validated v then CorrectOutput
                                  else IncorrectOutput)) /\
     (validated v = true ->
      v_expected_output v = None /\ v_actual_output v = None) /\
     (validated v = false ->
      v_expected_output v = Some (strip expected) /\
      v_actual_output v = Some (f_stdout f))).
Proof.
  intros run out. subst out. unfold validate_solution. fold run.
  pose proof (execute_code_stdout_stripped requests_available net source language
                input (Some expected)) as Hstrip.
  cbv zeta in Hstrip. fold run in Hstrip.
  destruct run as [result calls]. cbn [fst snd] in *.
  destruct result as [x | f]; cbn [result_success result_stdout] in *.
  - split; [reflexivity |]. split; [intros _; split; reflexivity | discriminate].
  - destruct (f_success f); cbn [negb].
    + rewrite Hstrip.
      destruct (String.eqb_spec (f_stdout f) (strip expected)) as [Heq | Hne];
        cbn [fst snd]; (split; [reflexivity |]); (split; [discriminate |]);
        intros _; eexists f, _; (split; [reflexivity |]); (split; [reflexivity |]);
        cbn [validated v_expected_output v_actual_output].
      * split; [split; [intros _; exact Heq | reflexivity] |].
        split; [reflexivity |].
        split; [intros _; split; reflexivity | discriminate].
      * split; [split; [discriminate | intros H; contradiction] |].
        split; [reflexivity |].
        split; [discriminate | intros _; split; reflexivity].
    + cbn [fst snd]. split; [reflexivity |].
      split; [intros _; split; reflexivity | discriminate].
Qed.

Lemma validate_solution_compares_stripped_witness :
  exists f v,
    fst (execute_code true accepts_at_once "print(1)" "python" EmptyString
                      (Some "  1  ")) = Formatted f /\
    validated v = true /\
    fst (fst (validate_solution true accepts_at_once "print(1)" "python"
                                "  1  " EmptyString))
    = Formatted (with_message f CorrectOutput).
Proof.
  destruct (validate_solution_compares_stripped true accepts_at_once "print(1)"
              "python" "  1  " EmptyString) as (_ & _ & Hok).
  destruct (Hok ltac:(vm_compute; reflexivity))
    as (f & v & Hrun & _ & Hiff & Hout & _).
  assert (Hv : validated v = true).
  { apply Hiff. clear Hiff Hout.
    vm_compute in Hrun. injection Hrun as <-. reflexivity. }
  exists f, v. split; [exact Hrun |]. split; [exact Hv |].
  rewrite Hv in Hout. exact Hout.
Defined.

End Judge0Proofs.

(* ===================================================================== *)
(** * The orchestrator on top of the sandbox client *)
(* ===================================================================== *)

Module SandboxPipelineProofs.
Import PyStr Views.

(** The result dictionary as the orchestrator reads it. *)
Definition as_execution_result (r : Judge0Service.Judge0Result) : ExecutionResult :=
  mkExecutionResult (Judge0Service.result_success r) (Judge0Service.result_stdout r)
                    (Judge0Service.result_stderr r)
                    (Judge0Service.result_compile_output r).

(** The services of the orchestrator when the sandbox is the Judge0
    client: [judge0.execute_code(source_code, language, stdin)], which
    never raises. *)
Definition judge0_services (requests_available : bool)
    (net : Judge0Service.Network) (available : bool)
    (evaluate : string -> string -> string -> string -> option string
                -> option AIResult) : Services :=
  mkServices
    (fun source language input =>
       Some (as_execution_result
               (fst (Judge0Service.execute_code requests_available net
                       source language input None))))
    available evaluate.

(** A sandbox call that fails with neither compile output nor stderr
    leaves the submission to the graders. *)
Lemma silent_failure_is_graded (svc : Services) (exercise : Exercise)
    (code : string) (result : ExecutionResult) :
  too_short code = false ->
  execute_code svc code (language exercise) EmptyString = Some result ->
  success result = false ->
  truthy (compile_output result) = false -> truthy (stderr result) = false ->
  _validate_with_ai_and_execution svc exercise code
  = PipelineProofs.grade svc exercise code None.
Proof.
  intros Hshort Hrun Hfail Hcomp Herr.
  unfold _validate_with_ai_and_execution, run_execution, PipelineProofs.grade.
  rewrite Hshort, Hrun, Hfail, Hcomp, Herr. reflexivity.
Qed.

(** X6: what the graders get to see of the execution.  Past the length
    check: a successful run hands its stdout to the oracle; a runtime
    error of a browser-oriented language that names a browser API hands
    over the warning annotation; a sandbox call that raises, or that
    fails with neither compile output nor stderr, hands over nothing;
    and in all three cases grading takes place. *)
Theorem execution_context_for_grading (svc : Services) (exercise : Exercise)
    (code : string) :
  too_short code = false ->
  let out := _validate_with_ai_and_execution svc exercise code in
  let run := execute_code svc code (language exercise) EmptyString in
  (forall result, run = Some result -> success result = true ->
     out = PipelineProofs.grade svc exercise code (Some (stdout result))) /\
  (forall result, run = Some result -> success result = false ->
     truthy (compile_output result) = false ->
     PipelineProofs.browser_language exercise = true ->
     any_in browser_apis (stderr result) = true ->
     out = PipelineProofs.grade svc exercise code
             (Some (browser_warning (stderr result)))) /\
  (forall result, run = Some result -> success result = false ->
     truthy (compile_output result) = false -> truthy (stderr result) = false ->
     out = PipelineProofs.grade svc exercise code None) /\
  (run = None -> out = PipelineProofs.grade svc exercise code None).
Proof.
  intros Hshort out run. subst out run.
  unfold _validate_with_ai_and_execution, run_execution, PipelineProofs.grade,
    PipelineProofs.browser_language.
  rewrite Hshort.
  split; [intros result -> ->; reflexivity |].
  split.
  { intros result -> -> -> Hlang Hapi.
    assert (Herr : truthy (stderr result) = true).
    { destruct (stderr result); [discriminate Hapi | reflexivity]. }
    rewrite Herr, Hlang, Hapi. reflexivity. }
  split.
  { intros result Hrun Hfail Hcomp Herr.
    pose proof (silent_failure_is_graded svc exercise code result
                  Hshort Hrun Hfail Hcomp Herr) as H.
    unfold _validate_with_ai_and_execution, run_execution, PipelineProofs.grade in H.
    rewrite Hshort in H. exact H. }
  intros ->. reflexivity.
Qed.

Lemma execution_context_for_grading_witness :
  _validate_with_ai_and_execution
    (mkServices (fun _ _ _ => Some (mkExecutionResult true "3" EmptyString EmptyString))
                true (fun _ _ _ _ out => match out with
                                         | Some "3" => Some PipelineProofs.lenient_oracle
                                         | _ => None
                                         end))
    PipelineProofs.hello_python "print(1+2)"
  = (mkResult true (AIEvaluation "ok" EmptyString "fine" 100), [StageExecute; StageAI]).
Proof.
  destruct (execution_context_for_grading
              (mkServices (fun _ _ _ => Some (mkExecutionResult true "3"
                                                EmptyString EmptyString))
                          true (fun _ _ _ _ out => match out with
                                                   | Some "3" =>
                                                       Some PipelineProofs.lenient_oracle
                                                   | _ => None
                                                   end))
              PipelineProofs.hello_python "print(1+2)" eq_refl) as (Hsuccess & _).
  rewrite (Hsuccess _ eq_refl eq_refl). reflexivity.
Defined.

Lemma failed_result_is_empty (f : Judge0Service.Failure) :
  as_execution_result (Judge0Service.Failed f)
  = mkExecutionResult false EmptyString EmptyString EmptyString.
Proof. reflexivity. Qed.

(** X7: with the Judge0 client as sandbox, any failure of the client
    (service missing, language unknown, transport error, no token, no
    result after 10 polls) leaves the submission to the graders, without
    execution output; and for a language that is not a key of
    [LANGUAGE_IDS] - such as the tags [other] and [c++] - the client
    fails without a single network call. *)
Theorem sandbox_failure_is_graded (requests_available : bool)
    (net : Judge0Service.Network) (available : bool)
    (evaluate : string -> string -> string -> string -> option string
                -> option AIResult)
    (exercise : Exercise) (code : string) :
  let svc := judge0_services requests_available net available evaluate in
  let run := Judge0Service.execute_code requests_available net code
               (language exercise) EmptyString None in
  (forall f, too_short code = false -> fst run = Judge0Service.Failed f ->
     _validate_with_ai_and_execution svc exercise code
     = PipelineProofs.grade svc exercise code None) /\
  (Judge0Service.LANGUAGE_IDS !! language exercise = None ->
   requests_available = true ->
   run = (Judge0Service.Failed
            (Judge0Service.UnsupportedLanguage (language exercise)), [])) /\
  Judge0Service.LANGUAGE_IDS !! "other" = None /\
  Judge0Service.LANGUAGE_IDS !! "c++" = None.
Proof.
  intros svc run. split.
  - intros f Hshort Hfail.
    apply (silent_failure_is_graded svc exercise code
             (mkExecutionResult false EmptyString EmptyString EmptyString) Hshort);
      try reflexivity.
    subst svc. cbn [execute_code judge0_services]. fold run.
    rewrite Hfail. reflexivity.
  - split; [| split; vm_compute; reflexivity].
    intros Hlang ->. subst run. unfold Judge0Service.execute_code.
    cbn [negb]. rewrite Hlang. reflexivity.
Qed.

Lemma sandbox_failure_is_graded_witness :
  snd (_validate_with_ai_and_execution
         (judge0_services true Judge0Proofs.always_pending false
                          (fun _ _ _ _ _ => None))
         (mkExercise 4 "other" "easy" "Say hello" "echo hello world")
         "echo hello world")
  = [StageExecute; StageHeuristic].
Proof.
  destruct (sandbox_failure_is_graded true Judge0Proofs.always_pending false
              (fun _ _ _ _ _ => None)
              (mkExercise 4 "other" "easy" "Say hello" "echo hello world")
              "echo hello world") as (Hgraded & _).
  rewrite (Hgraded (Judge0Service.UnsupportedLanguage "other") eq_refl
             ltac:(vm_compute; reflexivity)).
  reflexivity.
Defined.

(** X8: the execution stage never accepts on its own: a verdict with
    is_correct = true comes from the AI stage or from the heuristic
    stage; and the stages run are always one of: none (code too short),
    execution alone, execution then AI, execution then AI then
    heuristics, execution then heuristics. *)
Theorem acceptance_needs_a_grader (svc : Services) (exercise : Exercise)
    (code : string) :
  let out := _validate_with_ai_and_execution svc exercise code in
  (is_correct (fst out) = true ->
   In StageAI (snd out) \/ In StageHeuristic (snd out)) /\
  In (snd out) [[]; [StageExecute]; [StageExecute; StageAI];
                [StageExecute; StageAI; StageHeuristic];
                [StageExecute; StageHeuristic]].
Proof.
  intros out. subst out. unfold _validate_with_ai_and_execution.
  destruct (too_short code); [split; [discriminate | left; reflexivity] |].
  destruct (run_execution svc exercise code) as [early | st] eqn:Hrun.
  - split; [| right; left; reflexivity].
    cbn [fst]. intros Hok. exfalso.
    unfold run_execution in Hrun.
    repeat match type of Hrun with
           | match ?x with _ => _ end = _ => destruct x; try discriminate Hrun
           | (if ?b then _ else _) = _ => destruct b; try discriminate Hrun
           end.
    injection Hrun as <-. discriminate Hok.
  - destruct (has_compilation_error st);
      [split; [discriminate | right; left; reflexivity] |].
    destruct (gemini_is_available svc).
    + destruct (evaluate_code svc _ _ _ _ _).
      * split; [intros _; left; right; left; reflexivity |].
        right; right; left; reflexivity.
      * split; [intros _; right; right; right; left; reflexivity |].
        right; right; right; left; reflexivity.
    + split; [intros _; right; right; left; reflexivity |].
      right; right; right; right; left; reflexivity.
Qed.

Lemma acceptance_needs_a_grader_witness :
  In StageAI [StageExecute; StageAI] \/ In StageHeuristic [StageExecute; StageAI].
Proof.
  apply (proj1 (acceptance_needs_a_grader
                  (mkServices (fun _ _ _ => Some PipelineProofs.name_error) true
                              (fun _ _ _ _ _ => Some PipelineProofs.lenient_oracle))
                  PipelineProofs.hello_python "print(x)")).
  reflexivity.
Defined.

End SandboxPipelineProofs.

(* ===================================================================== *)
(** * What the heuristic validators insist on *)
(* ===================================================================== *)

Module HeuristicProofs.
Import PyStr Views.

(** Every substring test and line count of the goal, as a boolean
    variable. *)
Ltac name_tests :=
  repeat match goal with
         | |- context [contains ?k ?s] => generalize (contains k s); intro
         | |- context [any_in ?k ?s] => generalize (any_in k s); intro
         | |- context [Nat.leb ?n ?m] => generalize (Nat.leb n m); intro
         | |- context [Nat.ltb ?n ?m] => generalize (Nat.ltb n m); intro
         end.

(** Every [if] of the goal, tried both ways. *)
Ltac split_ifs :=
  repeat match goal with
         | |- context [if ?b then _ else _] => destruct b
         end.

(** X9: no validator of a programming language accepts a submission
    with too few lines that are neither blank nor comments: fewer than 2
    for Python and JavaScript, fewer than 3 for C++, Java and C -
    whatever the reference solution is. *)
Theorem accepted_code_has_enough_lines (exercise : Exercise) (code : string) :
  (is_correct (_validate_python exercise code) = true ->
   2 <= List.length (code_lines "#" code)) /\
  (is_correct (_validate_javascript exercise code) = true ->
   2 <= List.length (code_lines "//" code)) /\
  (is_correct (_validate_cpp exercise code) = true ->
   3 <= List.length (code_lines "//" code)) /\
  (is_correct (_validate_java exercise code) = true ->
   3 <= List.length (code_lines "//" code)) /\
  (is_correct (_validate_c exercise code) = true ->
   3 <= List.length (code_lines "//" code)).
Proof.
  repeat split.
  - destruct (Nat.ltb_spec (List.length (code_lines "#" code)) 2) as [Hlt | Hge];
      [| intros _; exact Hge].
    unfold _validate_python. rewrite (proj2 (Nat.ltb_lt _ _) Hlt). discriminate.
  - destruct (Nat.ltb_spec (List.length (code_lines "//" code)) 2) as [Hlt | Hge];
      [| intros _; exact Hge].
    unfold _validate_javascript. rewrite (proj2 (Nat.ltb_lt _ _) Hlt).
    split_ifs; discriminate.
  - destruct (Nat.ltb_spec (List.length (code_lines "//" code)) 3) as [Hlt | Hge];
      [| intros _; exact Hge].
    unfold _validate_cpp. rewrite (proj2 (Nat.ltb_lt _ _) Hlt). discriminate.
  - destruct (Nat.ltb_spec (List.length (code_lines "//" code)) 3) as [Hlt | Hge];
      [| intros _; exact Hge].
    unfold _validate_java. rewrite (proj2 (Nat.ltb_lt _ _) Hlt). discriminate.
  - destruct (Nat.ltb_spec (List.length (code_lines "//" code)) 3) as [Hlt | Hge];
      [| intros _; exact Hge].
    unfold _validate_c. rewrite (proj2 (Nat.ltb_lt _ _) Hlt). discriminate.
Qed.

Definition two_line_program : string :=
  "total = 1 + 2" ++ String newline "print(total)".

Lemma accepted_code_has_enough_lines_witness :
  2 <= List.length (code_lines "#" two_line_program).
Proof.
  apply (proj1 (accepted_code_has_enough_lines
                  (mkExercise 5 "python" "easy" "Add" two_line_program)
                  two_line_program)).
  vm_compute. reflexivity.
Defined.

(** X10: when the reference solution loops, a submission without any
    loop keyword is rejected by the validator of each programming
    language (JavaScript also counts the array methods as loops); and
    the Python validator, on a submission of at least two lines that
    has a function if the reference has one, says so with the
    loop-required message. *)
Theorem loop_is_required (exercise : Exercise) (code : string) :
  (any_in ["for "; "while "] (lower (solution_code exercise)) = true ->
   any_in ["for "; "while "] (lower code) = false ->
   is_correct (_validate_python exercise code) = false /\
   (2 <= List.length (code_lines "#" code) ->
    (contains "def " (solution_code exercise) = true -> contains "def " code = true) ->
    message (_validate_python exercise code) = PyBoucleRequise)) /\
  (any_in ["for"; "while"; ".map"; ".foreach"] (lower (solution_code exercise)) = true ->
   any_in ["for"; "while"; ".map"; ".foreach"; ".filter"; ".reduce"] (lower code) = false ->
   is_correct (_validate_javascript exercise code) = false) /\
  (any_in ["for"; "while"] (lower (solution_code exercise)) = true ->
   any_in ["for"; "while"] (lower code) = false ->
   is_correct (_validate_cpp exercise code) = false /\
   is_correct (_validate_java exercise code) = false /\
   is_correct (_validate_c exercise code) = false).
Proof.
  split; [| split].
  - intros Hsol Hcode. unfold _validate_python. rewrite Hsol, Hcode. cbn [negb andb].
    split; [split_ifs; reflexivity |].
    intros Hlines Hdef.
    rewrite (proj2 (Nat.ltb_ge _ _) Hlines).
    destruct (contains "def " (solution_code exercise)); [| reflexivity].
    rewrite (Hdef eq_refl). reflexivity.
  - intros Hsol Hcode. unfold _validate_javascript. rewrite Hsol, Hcode.
    cbn [negb andb]. split_ifs; reflexivity.
  - intros Hsol Hcode.
    unfold _validate_cpp, _validate_java, _validate_c. rewrite Hsol, Hcode.
    cbn [negb andb orb]. repeat split; split_ifs; reflexivity.
Qed.

Definition loop_exercise : Exercise :=
  mkExercise 6 "python" "easy" "Print 0 to 2"
             ("for i in range(3):" ++ String newline "    print(i)").

Definition unrolled : string :=
  "print(0)" ++ String newline ("print(1)" ++ String newline "print(2)").

Lemma loop_is_required_witness :
  _validate_python loop_exercise unrolled = reject PyBoucleRequise.
Proof.
  destruct (proj1 (loop_is_required loop_exercise unrolled)
              ltac:(vm_compute; reflexivity) ltac:(vm_compute; reflexivity))
    as [Hwrong Hmsg].
  specialize (Hmsg ltac:(vm_compute; lia) ltac:(vm_compute; discriminate)).
  destruct (_validate_python loop_exercise unrolled) as [ok msg].
  cbn in Hwrong, Hmsg. subst. reflexivity.
Defined.

(** X11: the last rejection of the C++, Java and C validators, "the
    solution seems incomplete", is never returned: a submission that got
    past the checks before it meets all requirements.  The one of the
    SQL validator is returned only for a query of at most 10 characters
    once stripped. *)
Theorem incomplete_is_unreachable (exercise : Exercise) (code : string) :
  message (_validate_cpp exercise code) <> CppIncomplete /\
  message (_validate_java exercise code) <> JavaIncomplete /\
  message (_validate_c exercise code) <> CIncomplete /\
  (message (_validate_sql exercise code) = SqlIncomplete ->
   len (strip code) <= 10).
Proof.
  repeat split.
  - unfold _validate_cpp. rewrite Nat.ltb_antisym.
    name_tests.
    repeat match goal with b : bool |- _ => destruct b end; discriminate.
  - unfold _validate_java. rewrite Nat.ltb_antisym.
    name_tests.
    repeat match goal with b : bool |- _ => destruct b end; discriminate.
  - unfold _validate_c. rewrite Nat.ltb_antisym.
    name_tests.
    repeat match goal with b : bool |- _ => destruct b end; discriminate.
  - destruct (Nat.ltb_spec 10 (len (strip code))) as [Hlt | Hge];
      [| intros _; exact Hge].
    unfold _validate_sql. rewrite (proj2 (Nat.ltb_lt _ _) Hlt).
    cbn [existsb].
    name_tests.
    repeat match goal with b : bool |- _ => destruct b end; discriminate.
Qed.

Lemma incomplete_is_unreachable_witness :
  len (strip "SELECT 1") <= 10.
Proof.
  apply (proj2 (proj2 (proj2 (incomplete_is_unreachable
                                (mkExercise 7 "sql" "easy" "One" "SELECT 1")
                                "SELECT 1")))).
  vm_compute. reflexivity.
Defined.

(** X12: the markup validator tolerates two missing tags, so when the
    reference solution has at most two distinct tags - for instance a
    style sheet, which has none - every submission is accepted, and
    through the dispatch every submission of at least 5 characters. *)
Theorem few_tags_accept_everything (exercise : Exercise) (code : string) :
  size (tag_set (lower (solution_code exercise))) <= 2 ->
  is_correct (_validate_html_css exercise code) = true /\
  (in_list (lower (language exercise)) ["html"; "css"; "xml"] = true ->
   too_short code = false ->
   is_correct (_validate_solution_intelligent exercise code) = true).
Proof.
  intros Hfew.
  assert (Hhtml : is_correct (_validate_html_css exercise code) = true).
  { unfold _validate_html_css.
    set (missing := tag_set (lower (solution_code exercise)) ∖ tag_set (lower code)).
    assert (Hle : size missing <= 2).
    { etransitivity; [| exact Hfew]. apply subseteq_size. subst missing.
      intros x Hx. apply elem_of_difference in Hx as [Hx _]. exact Hx. }
    destruct (size missing =? 0)%nat; [reflexivity |].
    rewrite (proj2 (Nat.leb_le _ _) Hle). reflexivity. }
  split; [exact Hhtml |].
  intros Hlang Hshort. unfold _validate_solution_intelligent.
  rewrite Hshort, Hlang. exact Hhtml.
Qed.

Definition css_exercise : Exercise :=
  mkExercise 8 "css" "easy" "Make titles red" "h1 { color: red; }".

Lemma few_tags_accept_everything_witness :
  is_correct (_validate_solution_intelligent css_exercise "hello") = true.
Proof.
  apply (proj2 (few_tags_accept_everything css_exercise "hello"
                  ltac:(vm_compute; lia)));
    reflexivity.
Defined.

(** ** The generic validator *)

Lemma append_cons (a : ascii) (s t : string) :
  (String a s ++ t = String a (s ++ t))%string.
Proof. reflexivity. Qed.

Lemma len_append (s t : string) : len (s ++ t)%string = len s + len t.
Proof.
  induction s as [|a s IH]; [reflexivity |].
  rewrite append_cons. unfold len in *. cbn [String.length]. rewrite IH. reflexivity.
Qed.

Lemma count_equal_prefix (s t : string) :
  count_equal (s ++ t)%string s = len s.
Proof.
  induction s as [|a s IH]; [destruct t; reflexivity |].
  rewrite append_cons, SimilarityProofs.count_equal_cons, IH, Ascii.eqb_refl.
  reflexivity.
Qed.

(** X13: the generic validator divides the number of matching positions
    by the length of the reference alone, so a submission that starts
    with the whole reference (both without whitespace and in lower case)
    and has at least 15 characters is accepted, whatever follows. *)
Theorem generic_accepts_extensions (exercise : Exercise) (code extra : string) :
  lower (remove_spaces code)
  = (lower (remove_spaces (solution_code exercise)) ++ extra)%string ->
  1 <= len (lower (remove_spaces (solution_code exercise))) ->
  15 <= len (lower (remove_spaces code)) ->
  _validate_generic exercise code = accept GenAcceptee.
Proof.
  intros Hext Hsol Hlen. unfold _validate_generic.
  rewrite !SimilarityProofs.join_split_ws.
  set (c := lower (remove_spaces (solution_code exercise))) in *.
  rewrite (proj2 (Nat.ltb_ge _ _) Hlen), Hext, count_equal_prefix.
  replace (Nat.max (len c) 1) with (len c) by lia.
  assert (Hgt : GeminiService.Qgtb
                  (inject_Z (Z.of_nat (len c)) / inject_Z (Z.of_nat (len c))) (7 # 10)
                = true).
  { apply SimilarityProofs.Qgtb_lt.
    assert (Hne : ~ (inject_Z (Z.of_nat (len c)) == 0)%Q).
    { change 0%Q with (inject_Z 0). rewrite inject_Z_injective. lia. }
    unfold Qdiv. rewrite (Qmult_inv_r _ Hne). reflexivity. }
  rewrite Hgt. reflexivity.
Qed.

Lemma generic_accepts_extensions_witness :
  _validate_generic (mkExercise 9 "other" "easy" "Say hello" "echo hello")
                    "echo hello; echo once more"
  = accept GenAcceptee.
Proof.
  apply (generic_accepts_extensions
           (mkExercise 9 "other" "easy" "Say hello" "echo hello")
           "echo hello; echo once more" ";echooncemore");
    [reflexivity | vm_compute; lia | vm_compute; lia].
Defined.

End HeuristicProofs.

(* ===================================================================== *)
(** * More on the ledger *)
(* ===================================================================== *)

Module LedgerExtras.
Import Models.
Local Open Scope Z_scope.

(** The level as a function of XP, band by band. *)
Definition level_of_xp (x : Z) : Z :=
  if x <? 100 then 1
  else if x <? 300 then 2
  else if x <? 700 then 3
  else if x <? 1500 then 4
  else if x <? 3000 then 5
  else if x <? 6000 then 6
  else if x <? 10000 then 7
  else 8.

Lemma level_loop_bands (x l0 : Z) :
  0 <= x -> level_loop level_thresholds x l0 = level_of_xp x.
Proof.
  intros Hx. unfold level_loop, level_thresholds, level_of_xp. cbn.
  repeat match goal with
         | |- context [x >=? ?c] => destruct (Z.geb_spec x c); try lia
         end;
  repeat match goal with
         | |- context [x <? ?c] => destruct (Z.ltb_spec x c); try lia
         end;
  reflexivity.
Qed.

(** X14: the level [add_xp] stores depends on the new XP total alone,
    not on the level stored before: 1 below 100 XP, 2 from 100, 3 from
    300, 4 from 700, 5 from 1500, 6 from 3000, 7 from 6000 and 8 from
    10000 on, each band starting at its threshold. *)
Theorem add_xp_level_bands (self : UserProgress) (points : Z) :
  0 <= xp self + points ->
  level (fst (add_xp self points)) = level_of_xp (xp self + points) /\
  1 <= level (fst (add_xp self points)) <= 8.
Proof.
  intros Hx. cbn [add_xp fst level]. rewrite (level_loop_bands _ _ Hx).
  split; [reflexivity |].
  unfold level_of_xp.
  repeat match goal with |- context [if ?b then _ else _] => destruct b end; lia.
Qed.

Lemma add_xp_level_bands_witness :
  level (fst (add_xp new_progress 100)) = 2 /\
  level (fst (add_xp new_progress 99)) = 1.
Proof.
  split.
  - apply (proj1 (add_xp_level_bands new_progress 100 ltac:(simpl; lia))).
  - apply (proj1 (add_xp_level_bands new_progress 99 ltac:(simpl; lia))).
Defined.

(** X15: two awards in a row leave the same row as one award of their
    sum, provided the final XP total is not negative: XP and points add
    up and the level is that of the final total. *)
Theorem add_xp_composes (self : UserProgress) (a b : Z) :
  0 <= xp self + a + b ->
  add_xp (fst (add_xp self a)) b = add_xp self (a + b).
Proof.
  intros Hx. unfold add_xp. cbn [fst xp level total_points completed_videos
                                 completed_exercises streak_days last_activity_date].
  rewrite (level_loop_bands (xp self + a + b) _ Hx).
  rewrite (level_loop_bands (xp self + (a + b)) (level self)) by lia.
  rewrite !Z.add_assoc. reflexivity.
Qed.

Lemma add_xp_composes_witness :
  add_xp (fst (add_xp new_progress 10)) 50 = add_xp new_progress 60.
Proof. apply add_xp_composes. simpl. lia. Defined.

(** ** Streaks over several days *)

(** [check_streak] called once on each of the days of a list, in
    order. *)
Definition check_days (days : list Z) (self : UserProgress) : UserProgress :=
  fold_left (fun p day => check_streak day p) days self.

(** The [n] days that follow [d]. *)
Definition days_after (d : Z) (n : nat) : list Z :=
  List.map (fun i => d + Z.of_nat i) (List.seq 1 n).

Lemma days_after_succ (d : Z) (n : nat) :
  days_after d (S n) = (d + 1) :: days_after (d + 1) n.
Proof.
  unfold days_after. cbn [List.seq List.map]. f_equal.
  rewrite <- List.seq_shift, List.map_map.
  apply List.map_ext. intros i. lia.
Qed.

Lemma check_days_consecutive (n : nat) : forall (self : UserProgress) (d : Z),
  last_activity_date self = Some d ->
  streak_days (check_days (days_after d n) self) = streak_days self + Z.of_nat n /\
  last_activity_date (check_days (days_after d n) self) = Some (d + Z.of_nat n).
Proof.
  induction n as [|n IH]; intros self d Hlast.
  - cbn. rewrite Z.add_0_r, Z.add_0_r. split; [reflexivity | exact Hlast].
  - rewrite days_after_succ. unfold check_days. cbn [fold_left].
    fold (check_days (days_after (d + 1) n) (check_streak (d + 1) self)).
    destruct (IH (check_streak (d + 1) self) (d + 1) eq_refl) as [Hs Hl].
    rewrite Hs, Hl. split; [| f_equal; lia].
    unfold check_streak. cbn [streak_days]. rewrite Hlast.
    replace (d + 1 - d) with 1 by lia. cbn. lia.
Qed.

(** X16: activity on [n] further consecutive days adds [n] to the
    streak, and a first activity followed by activity on each of the
    next [n] days gives a streak of [n + 1]; the day after a missed day
    the streak is back to 1. *)
Theorem streak_counts_consecutive_days (self : UserProgress) (d : Z) (n : nat) :
  (last_activity_date self = Some d ->
   streak_days (check_days (days_after d n) self) = streak_days self + Z.of_nat n) /\
  (last_activity_date self = None ->
   streak_days (check_days (d :: days_after d n) self) = Z.of_nat n + 1) /\
  (last_activity_date self = Some d ->
   streak_days (check_streak (d + Z.of_nat n + 2)
                  (check_days (days_after d n) self)) = 1).
Proof.
  split; [intros Hlast; apply (check_days_consecutive n self d Hlast) |].
  split.
  - intros Hnone. unfold check_days. cbn [fold_left].
    fold (check_days (days_after d n) (check_streak d self)).
    destruct (check_days_consecutive n (check_streak d self) d eq_refl) as [Hs _].
    rewrite Hs. unfold check_streak. cbn [streak_days]. rewrite Hnone. lia.
  - intros Hlast.
    destruct (check_days_consecutive n self d Hlast) as [_ Hl].
    unfold check_streak at 1. cbn [streak_days]. rewrite Hl.
    replace (d + Z.of_nat n + 2 - (d + Z.of_nat n)) with 2 by lia. reflexivity.
Qed.

Lemma streak_counts_consecutive_days_witness :
  streak_days (check_days [738000; 738001; 738002] new_progress) = 3.
Proof.
  apply (proj1 (proj2 (streak_counts_consecutive_days new_progress 738000 2))).
  reflexivity.
Defined.

(** After any calls at all, a fresh row has a streak of at least 1 and
    at most the number of calls. *)
Lemma check_days_bounds (days : list Z) : forall (self : UserProgress) (n : Z),
  1 <= streak_days self <= n -> last_activity_date self <> None ->
  1 <= streak_days (check_days days self) <= n + Z.of_nat (List.length days) /\
  last_activity_date (check_days days self) <> None.
Proof.
  induction days as [|day days IH]; intros self n Hs Hl.
  - cbn. split; [lia | exact Hl].
  - unfold check_days. cbn [fold_left List.length].
    fold (check_days days (check_streak day self)).
    destruct (IH (check_streak day self) (n + 1)) as [Hb Hd].
    + unfold check_streak. cbn [streak_days].
      destruct (last_activity_date self) as [last|]; [| lia].
      destruct (day - last =? 1); [lia |]. destruct (day - last >? 1); lia.
    + discriminate.
    + split; [lia | exact Hd].
Qed.

(** X17: whatever the days on which [check_streak] is called on a fresh
    row, in whatever order, after at least one call the streak is at
    least 1 and at most the number of calls. *)
Theorem streak_is_bounded_by_calls (day : Z) (days : list Z) :
  1 <= streak_days (check_days (day :: days) new_progress)
    <= Z.of_nat (List.length (day :: days)).
Proof.
  unfold check_days. cbn [fold_left List.length].
  fold (check_days days (check_streak day new_progress)).
  destruct (check_days_bounds days (check_streak day new_progress) 1) as [Hb _].
  - cbn. lia.
  - discriminate.
  - lia.
Qed.

End LedgerExtras.

(* ===================================================================== *)
(** * More on the endpoints that touch the ledger *)
(* ===================================================================== *)

Module EndpointExtras.
Import Views.
Local Open Scope Z_scope.

(** X18: whoever calls it and whatever the verdict, the exercise
    endpoint never changes XP, level, streak, last-activity date or the
    completed videos; the completed exercises only grow, and the points
    total grows by 0, 20, 30 or 50. *)
Theorem submit_only_adds (svc : Services) (is_authenticated : bool)
    (exercise : Exercise) (code : string) (row : option Models.UserProgress) :
  let before := get_or_create row in
  let after := get_or_create (snd (submit svc is_authenticated exercise code row)) in
  Models.xp after = Models.xp before /\
  Models.level after = Models.level before /\
  Models.streak_days after = Models.streak_days before /\
  Models.last_activity_date after = Models.last_activity_date before /\
  Models.completed_videos after = Models.completed_videos before /\
  Models.completed_exercises before ⊆ Models.completed_exercises after /\
  In (Models.total_points after - Models.total_points before) [0; 20; 30; 50].
Proof.
  intros before after. subst before after. unfold submit.
  destruct is_authenticated; cbn [negb snd].
  2: { rewrite Z.sub_diag. repeat split; [reflexivity | left; reflexivity]. }
  destruct (bool_decide _);
    [destruct (is_correct _) | destruct (is_correct _)];
    cbn [snd get_or_create Models.xp Models.level Models.streak_days
         Models.last_activity_date Models.completed_videos
         Models.completed_exercises Models.total_points];
    try (rewrite Z.sub_diag; repeat split; [reflexivity | left; reflexivity]).
  repeat split; [set_solver |].
  replace (Models.total_points (get_or_create row) + points_for (difficulty exercise)
           - Models.total_points (get_or_create row))
    with (points_for (difficulty exercise)) by lia.
  unfold points_for.
  destruct (String.eqb _ "easy"); [right; left; reflexivity |].
  destruct (String.eqb _ "medium"); [right; right; left; reflexivity |].
  destruct (String.eqb _ "hard");
    [right; right; right; left; reflexivity | right; left; reflexivity].
Qed.

(** X19: marking the same video again changes nothing: the second call
    answers "already completed" and leaves the row of the first call,
    so any number of calls adds 10 points once. *)
Theorem mark_completed_idempotent (video : nat) (row : option Models.UserProgress) :
  let once := mark_completed true video row in
  mark_completed true video (snd once) = (VideoAlreadyCompleted, snd once) /\
  In (Models.total_points (get_or_create (snd once))
      - Models.total_points (get_or_create row)) [0; 10].
Proof.
  intros once. subst once. unfold mark_completed at 2 3 4. cbn [negb].
  destruct (decide (video ∈ Models.completed_videos (get_or_create row))) as [Hin | Hnot].
  - rewrite (bool_decide_eq_true_2 _ Hin). cbn [negb snd get_or_create].
    split.
    + unfold mark_completed. cbn [negb get_or_create].
      rewrite (bool_decide_eq_true_2 _ Hin). reflexivity.
    + rewrite Z.sub_diag. left. reflexivity.
  - rewrite (bool_decide_eq_false_2 _ Hnot). cbn [negb snd get_or_create].
    split.
    + unfold mark_completed. cbn [negb get_or_create Models.completed_videos].
      rewrite bool_decide_eq_true_2 by set_solver. reflexivity.
    + cbn [Models.total_points]. right. left. lia.
Qed.

End EndpointExtras.

(* ===================================================================== *)
(** * Properties of the course navigation and endpoints *)
(* ===================================================================== *)

Module CourseExtras.
Import CourseViews.
Local Open Scope Z_scope.

(** ** Next and previous item *)

Lemma first_by_order_spec (l : list CourseItem) :
  match first_by_order l with
  | Some j => In j l /\ forall i, In i l -> order j <= order i
  | None => l = []
  end.
Proof.
  induction l as [|i rest IH]; [reflexivity |].
  cbn [first_by_order]. destruct (first_by_order rest) as [j|].
  - destruct IH as [Hin Hmin].
    destruct (Z.ltb_spec (order j) (order i)).
    + split; [right; exact Hin |].
      intros k [<- | Hk]; [lia | apply Hmin; exact Hk].
    + split; [left; reflexivity |].
      intros k [<- | Hk]; [lia | specialize (Hmin k Hk); lia].
  - subst rest. split; [left; reflexivity |].
    intros k [<- | []]. lia.
Qed.

Lemma last_by_order_spec (l : list CourseItem) :
  match last_by_order l with
  | Some j => In j l /\ forall i, In i l -> order i <= order j
  | None => l = []
  end.
Proof.
  induction l as [|i rest IH]; [reflexivity |].
  cbn [last_by_order]. destruct (last_by_order rest) as [j|].
  - destruct IH as [Hin Hmax].
    destruct (Z.ltb_spec (order i) (order j)).
    + split; [right; exact Hin |].
      intros k [<- | Hk]; [lia | apply Hmax; exact Hk].
    + split; [left; reflexivity |].
      intros k [<- | Hk]; [lia | specialize (Hmax k Hk); lia].
  - subst rest. split; [left; reflexivity |].
    intros k [<- | []]. lia.
Qed.

Lemma in_items_of (table : list CourseItem) (course_id : nat) (i : CourseItem) :
  In i (items_of table course_id) <-> In i table /\ item_course i = course_id.
Proof.
  unfold items_of. rewrite List.filter_In, Nat.eqb_eq. reflexivity.
Qed.

(** The items of the course of [self] that come after it. *)
Definition later (table : list CourseItem) (self i : CourseItem) : Prop :=
  In i table /\ item_course i = item_course self /\ order self < order i.

Definition earlier (table : list CourseItem) (self i : CourseItem) : Prop :=
  In i table /\ item_course i = item_course self /\ order i < order self.

Lemma get_next_item_spec (table : list CourseItem) (self : CourseItem) :
  match get_next_item table self with
  | Some j => later table self j /\ forall i, later table self i -> order j <= order i
  | None => forall i, ~ later table self i
  end.
Proof.
  unfold get_next_item.
  pose proof (first_by_order_spec
                (List.filter (fun i => order self <? order i)
                             (items_of table (item_course self)))) as H.
  destruct (first_by_order _) as [j|].
  - destruct H as [Hin Hmin].
    apply List.filter_In in Hin as [Hin Hord]. apply in_items_of in Hin as [Hin Hc].
    apply Z.ltb_lt in Hord.
    split; [repeat split; assumption |].
    intros i (Hi & Hci & Hoi). apply Hmin.
    apply List.filter_In. split; [apply in_items_of; split; assumption |].
    apply Z.ltb_lt. exact Hoi.
  - intros i (Hi & Hci & Hoi).
    assert (Hin : In i (List.filter (fun i => order self <? order i)
                                    (items_of table (item_course self)))).
    { apply List.filter_In. split; [apply in_items_of; split; assumption |].
      apply Z.ltb_lt. exact Hoi. }
    rewrite H in Hin. exact Hin.
Qed.

Lemma get_previous_item_spec (table : list CourseItem) (self : CourseItem) :
  match get_previous_item table self with
  | Some j => earlier table self j /\ forall i, earlier table self i -> order i <= order j
  | None => forall i, ~ earlier table self i
  end.
Proof.
  unfold get_previous_item.
  pose proof (last_by_order_spec
                (List.filter (fun i => order i <? order self)
                             (items_of table (item_course self)))) as H.
  destruct (last_by_order _) as [j|].
  - destruct H as [Hin Hmax].
    apply List.filter_In in Hin as [Hin Hord]. apply in_items_of in Hin as [Hin Hc].
    apply Z.ltb_lt in Hord.
    split; [repeat split; assumption |].
    intros i (Hi & Hci & Hoi). apply Hmax.
    apply List.filter_In. split; [apply in_items_of; split; assumption |].
    apply Z.ltb_lt. exact Hoi.
  - intros i (Hi & Hci & Hoi).
    assert (Hin : In i (List.filter (fun i => order i <? order self)
                                    (items_of table (item_course self)))).
    { apply List.filter_In. split; [apply in_items_of; split; assumption |].
      apply Z.ltb_lt. exact Hoi. }
    rewrite H in Hin. exact Hin.
Qed.

(** X20: the next item, when there is one, is an item of the same
    course with a greater order, and no item of that course lies
    strictly between the two; there is none exactly when no item of the
    course has a greater order. *)
Theorem next_item_is_the_closest_later (table : list CourseItem)
    (self : CourseItem) :
  (forall j, get_next_item table self = Some j ->
     In j table /\ item_course j = item_course self /\ order self < order j /\
     forall i, In i table -> item_course i = item_course self ->
               ~ (order self < order i < order j)) /\
  (get_next_item table self = None <->
   forall i, In i table -> item_course i = item_course self ->
             order i <= order self).
Proof.
  pose proof (get_next_item_spec table self) as H.
  destruct (get_next_item table self) as [j|].
  - destruct H as [(Hin & Hc & Ho) Hmin]. split.
    + intros k [= <-]. repeat split; try assumption.
      intros i Hi Hci [Hlo Hhi].
      specialize (Hmin i (conj Hi (conj Hci Hlo))). lia.
    + split; [discriminate |].
      intros Hall. specialize (Hall j Hin Hc). lia.
  - split; [discriminate |].
    split; [| reflexivity].
    intros _ i Hi Hci.
    destruct (Z.le_gt_cases (order i) (order self)) as [Hle | Hgt]; [exact Hle |].
    exfalso. apply (H i). repeat split; assumption.
Qed.

Definition sample_table : list CourseItem :=
  [mkCourseItem 1 1 "video" 1; mkCourseItem 2 1 "exercise" 2;
   mkCourseItem 3 1 "video" 5; mkCourseItem 4 2 "video" 3].

Lemma next_item_is_the_closest_later_witness :
  order (mkCourseItem 2 1 "exercise" 2) < order (mkCourseItem 3 1 "video" 5).
Proof.
  apply (proj1 (next_item_is_the_closest_later sample_table
                  (mkCourseItem 2 1 "exercise" 2))
               (mkCourseItem 3 1 "video" 5) eq_refl).
Defined.

(** Orders are unique within a course ([unique_together]). *)
Definition unique_orders (table : list CourseItem) : Prop :=
  forall i j, In i table -> In j table ->
              item_course i = item_course j -> order i = order j -> i = j.

(** X21: with orders unique within a course, going to the next item and
    back returns to the item one started from, and so does going to the
    previous item and forward. *)
Theorem next_then_previous (table : list CourseItem) (self : CourseItem) :
  unique_orders table -> In self table ->
  (forall j, get_next_item table self = Some j ->
             get_previous_item table j = Some self) /\
  (forall j, get_previous_item table self = Some j ->
             get_next_item table j = Some self).
Proof.
  intros Huniq Hself. split; intros j Hj.
  - pose proof (get_next_item_spec table self) as Hn. rewrite Hj in Hn.
    destruct Hn as [(Hin & Hc & Ho) Hmin].
    pose proof (get_previous_item_spec table j) as Hp.
    destruct (get_previous_item table j) as [k|].
    + destruct Hp as [(Hk & Hck & Hok) Hmax].
      assert (Hge : order self <= order k).
      { apply Hmax. repeat split; [exact Hself | congruence | exact Ho]. }
      assert (Hle : order k <= order self).
      { destruct (Z.le_gt_cases (order k) (order self)) as [H | H]; [exact H |].
        assert (order j <= order k); [| lia].
        apply Hmin. repeat split; [exact Hk | congruence | lia]. }
      f_equal. apply Huniq; [exact Hk | exact Hself | congruence | lia].
    + exfalso. apply (Hp self). repeat split; [exact Hself | congruence | exact Ho].
  - pose proof (get_previous_item_spec table self) as Hp. rewrite Hj in Hp.
    destruct Hp as [(Hin & Hc & Ho) Hmax].
    pose proof (get_next_item_spec table j) as Hn.
    destruct (get_next_item table j) as [k|].
    + destruct Hn as [(Hk & Hck & Hok) Hmin].
      assert (Hle : order k <= order self).
      { apply Hmin. repeat split; [exact Hself | congruence | exact Ho]. }
      assert (Hge : order self <= order k).
      { destruct (Z.le_gt_cases (order self) (order k)) as [H | H]; [exact H |].
        assert (order k <= order j); [| lia].
        apply Hmax. repeat split; [exact Hk | congruence | lia]. }
      f_equal. apply Huniq; [exact Hk | exact Hself | congruence | lia].
    + exfalso. apply (Hn self). repeat split; [exact Hself | congruence | exact Ho].
Qed.

Lemma sample_table_unique : unique_orders sample_table.
Proof.
  intros i j Hi Hj Hc Ho. unfold sample_table in *. cbn [In] in Hi, Hj.
  repeat match goal with
         | H : _ \/ _ |- _ => destruct H as [H | H]
         | H : False |- _ => destruct H
         end; subst; try reflexivity; cbn in Hc, Ho; discriminate.
Defined.

Lemma next_then_previous_witness :
  get_previous_item sample_table (mkCourseItem 3 1 "video" 5)
  = Some (mkCourseItem 2 1 "exercise" 2).
Proof.
  apply (proj1 (next_then_previous sample_table (mkCourseItem 2 1 "exercise" 2)
                  sample_table_unique ltac:(right; left; reflexivity))).
  reflexivity.
Defined.

(** ** Starting a course *)

(** X22: starting a course twice is starting it once: the second call
    leaves the row of the first as it is, starting date included; and a
    row that is already started is never touched. *)
Theorem start_is_idempotent (table : list CourseItem) (course_id : nat)
    (now later_on : Z) (row : option Models.UserCourseProgress) :
  start table course_id later_on (Some (start table course_id now row))
  = start table course_id now row /\
  (forall p, row = Some p -> Models.is_started p = true ->
             start table course_id now row = p).
Proof.
  split.
  - unfold start at 1. cbn [orb].
    assert (Hstarted : Models.is_started (start table course_id now row) = true).
    { unfold start. destruct row as [p|]; cbn [orb].
      - destruct (Models.is_started p) eqn:Hp; cbn [negb]; [exact Hp | reflexivity].
      - reflexivity. }
    rewrite Hstarted. reflexivity.
  - intros p -> Hp. unfold start. cbn [orb]. rewrite Hp. reflexivity.
Qed.

Lemma start_is_idempotent_witness :
  Models.started_at
    (start sample_table 1 2000 (Some (start sample_table 1 1000 None)))
  = Some 1000.
Proof.
  rewrite (proj1 (start_is_idempotent sample_table 1 1000 2000 None)).
  reflexivity.
Defined.

(** ** Completing an item *)

Definition stored_row (table : list CourseItem) (course_id : nat)
    (row : option Models.UserCourseProgress) : Models.UserCourseProgress :=
  match row with
  | Some p => p
  | None => new_course_progress (course_row table course_id)
  end.

(** The XP an item is worth. *)
Definition item_xp (item : CourseItem) : Z :=
  if String.eqb (content_type item) "video" then 10 else 50.

Lemma calculate_progress_frame (now : Z) (p saved : Models.UserCourseProgress)
    (pct : Z) :
  Models.calculate_progress now p = Some (saved, pct) ->
  Models.completed_items saved = Models.completed_items p /\
  Models.is_started saved = Models.is_started p /\
  Models.started_at saved = Models.started_at p /\
  Models.current_item saved = Models.current_item p.
Proof.
  unfold Models.calculate_progress.
  destruct (Models.get_total_items _ =? 0).
  - intros [= <- _]. repeat split.
  - destruct (Models.percentage _ _) as [q|]; [| discriminate].
    destruct (_ && _); intros [= <- _]; repeat split.
Qed.

(** The ledger row after [complete_item] found its item. *)
Lemma complete_item_ledger table course_id now today wanted item row ledger :
  find_item table course_id (S wanted) = Some item ->
  snd (snd (complete_item table course_id now today (Some (S wanted)) (row, ledger)))
  = if bool_decide (item_id item
                    ∈ Models.completed_items (stored_row table course_id row))
    then ledger
    else Some (Models.check_streak today
                 (fst (Models.add_xp (Views.get_or_create ledger) (item_xp item)))).
Proof.
  intros Hfind. unfold complete_item. rewrite Hfind.
  fold (stored_row table course_id row). fold (item_xp item).
  destruct (bool_decide _); cbn [negb];
    destruct (Models.calculate_progress _ _) as [[saved pct]|];
    try destruct (get_next_item table item); reflexivity.
Qed.

(** The course row after [complete_item] found its item: the item is
    among the completed ones, and nothing was removed. *)
Lemma complete_item_row table course_id now today wanted item row ledger :
  find_item table course_id (S wanted) = Some item ->
  exists after,
    fst (snd (complete_item table course_id now today (Some (S wanted)) (row, ledger)))
    = Some after /\
    Models.completed_items after
    = {[item_id item]} ∪ Models.completed_items (stored_row table course_id row).
Proof.
  intros Hfind. unfold complete_item. rewrite Hfind.
  fold (stored_row table course_id row).
  destruct (bool_decide_reflect
              (item_id item ∈ Models.completed_items (stored_row table course_id row)))
    as [Hin | Hnot]; cbn [negb];
    (destruct (Models.calculate_progress _ _) as [[saved pct]|] eqn:Hcalc;
     [apply calculate_progress_frame in Hcalc as (Hitems & _);
      cbn [Models.completed_items] in Hitems;
      destruct (get_next_item table item) | ]);
    eexists; (split; [reflexivity |]); cbn [Models.completed_items];
    try rewrite Hitems;
    first [ reflexivity
          | symmetry; apply subseteq_union_1_L, singleton_subseteq_l; exact Hin ].
Qed.

(** The item a request designates: the item of the course with the
    requested key, if a key is given, is not 0 and is one of the
    course's. *)
Definition requested_item (table : list CourseItem) (course_id : nat)
    (requested : option nat) : option CourseItem :=
  match requested with
  | Some (S wanted) => find_item table course_id (S wanted)
  | _ => None
  end.

Lemma find_item_spec table course_id wanted item :
  find_item table course_id wanted = Some item ->
  In item table /\ item_course item = course_id /\ item_id item = wanted.
Proof.
  unfold find_item. intros H. apply List.find_some in H as [Hin Hid].
  apply in_items_of in Hin as [Hin Hc]. apply Nat.eqb_eq in Hid.
  repeat split; assumption.
Qed.

(** X23: an item earns XP the first time it is completed and never
    again: completing it a second time, at any later moment, leaves the
    ledger row the first call left.  A request that designates no item
    of the course, or an item completed before, leaves the ledger
    alone; a request for an item of the course not completed before
    adds 10 XP if the item is a video and 50 XP if it is anything else,
    and then updates the streak. *)
Theorem complete_item_awards_once (table : list CourseItem) (course_id : nat)
    (now today now' today' : Z) (requested : option nat) (rows : Rows) :
  let first := complete_item table course_id now today requested rows in
  let second := complete_item table course_id now' today' requested (snd first) in
  snd (snd second) = snd (snd first) /\
  (requested_item table course_id requested = None ->
   snd (snd first) = snd rows) /\
  (forall item, requested_item table course_id requested = Some item ->
     In item table /\ item_course item = course_id /\
     requested = Some (item_id item) /\
     (item_id item ∈ Models.completed_items (stored_row table course_id (fst rows)) ->
      snd (snd first) = snd rows) /\
     (item_id item ∉ Models.completed_items (stored_row table course_id (fst rows)) ->
      snd (snd first)
      = Some (Models.check_streak today
                (fst (Models.add_xp (Views.get_or_create (snd rows))
                        (if String.eqb (content_type item) "video"
                         then 10 else 50)))))).
Proof.
  intros first second. subst second first. destruct rows as [row ledger].
  destruct requested as [[|wanted]|];
    try (split; [reflexivity |]; split; [reflexivity | discriminate]).
  cbn [requested_item fst snd].
  destruct (find_item table course_id (S wanted)) as [item|] eqn:Hfind.
  2: { unfold complete_item. rewrite Hfind.
       split; [reflexivity |]. split; [reflexivity | discriminate]. }
  split; [| split; [discriminate |]].
  - destruct (complete_item_row table course_id now today wanted item row ledger Hfind)
      as (after & Hafter & Hitems).
    destruct (complete_item table course_id now today (Some (S wanted)) (row, ledger))
      as [resp [row1 ledger1]].
    cbn [fst snd] in *. subst row1.
    rewrite (complete_item_ledger table course_id now' today' wanted item
               (Some after) ledger1 Hfind).
    cbn [stored_row]. rewrite bool_decide_eq_true_2; [reflexivity |].
    rewrite Hitems. apply elem_of_union_l, elem_of_singleton. reflexivity.
  - intros item' [= <-].
    destruct (find_item_spec table course_id (S wanted) item Hfind) as (Hin & Hc & Hid).
    split; [exact Hin |]. split; [exact Hc |]. split; [rewrite Hid; reflexivity |].
    rewrite (complete_item_ledger table course_id now today wanted item row ledger Hfind).
    split; intros H.
    + rewrite (bool_decide_eq_true_2 _ H). reflexivity.
    + rewrite (bool_decide_eq_false_2 _ H). reflexivity.
Qed.

Lemma complete_item_awards_once_witness :
  let first := complete_item sample_table 1 1000 738000 (Some 1%nat) (None, None) in
  let again := complete_item sample_table 1 2000 738001 (Some 1%nat) (snd first) in
  Models.xp (Views.get_or_create (snd (snd first))) = 10 /\
  snd (snd again) = snd (snd first) /\
  Models.xp (Views.get_or_create
               (snd (snd (complete_item sample_table 1 1000 738000 (Some 2%nat)
                            (None, None))))) = 50.
Proof.
  intros first again.
  destruct (complete_item_awards_once sample_table 1 1000 738000 2000 738001
              (Some 1%nat) (None, None)) as (Hagain & _ & Hvideo).
  destruct (Hvideo (mkCourseItem 1 1 "video" 1) eq_refl) as (_ & _ & _ & _ & Hnew).
  destruct (complete_item_awards_once sample_table 1 1000 738000 2000 738001
              (Some 2%nat) (None, None)) as (_ & _ & Hexercise).
  destruct (Hexercise (mkCourseItem 2 1 "exercise" 2) eq_refl)
    as (_ & _ & _ & _ & Hnew').
  split; [| split; [exact Hagain |]].
  - subst first. rewrite (Hnew ltac:(cbn; apply not_elem_of_empty)). reflexivity.
  - rewrite (Hnew' ltac:(cbn; apply not_elem_of_empty)). reflexivity.
Defined.

Lemma calculate_progress_below_100 (now : Z) (p saved : Models.UserCourseProgress)
    (pct : Z) :
  Models.calculate_progress now p = Some (saved, pct) ->
  Models.completion_percentage saved = pct /\
  (pct <> 100 -> Models.is_completed saved = Models.is_completed p).
Proof.
  unfold Models.calculate_progress.
  destruct (Models.get_total_items _ =? 0).
  - intros [= <- <-]. split; reflexivity.
  - destruct (Models.percentage _ _) as [q|]; [| discriminate].
    destruct (Z.eqb_spec q 100) as [-> | Hne]; cbn [andb].
    + destruct (negb _); intros [= <- <-]; (split; [reflexivity |]);
        intros H; contradiction.
    + intros [= <- <-]. split; reflexivity.
Qed.

(** X24: for an item that has no successor, the endpoint answers
    "course completed", with a percentage of 100 and is_completed true,
    without looking at the row: it does so even when the row it has just
    saved holds a percentage other than 100 and, the course not having
    been completed before, is_completed false. *)
Theorem final_item_reports_completion (table : list CourseItem) (course_id : nat)
    (now today : Z) (wanted : nat) (item : CourseItem) (rows : Rows) :
  find_item table course_id (S wanted) = Some item ->
  get_next_item table item = None ->
  let out := complete_item table course_id now today (Some (S wanted)) rows in
  (fst out = None \/ fst out = Some (CourseCompleted 100 true)) /\
  (forall saved, fst (snd out) = Some saved -> fst out <> None ->
     Models.is_completed (stored_row table course_id (fst rows)) = false ->
     Models.completion_percentage saved <> 100 ->
     Models.is_completed saved = false).
Proof.
  intros Hfind Hnext out. subst out. destruct rows as [row ledger].
  unfold complete_item. rewrite Hfind, Hnext.
  fold (stored_row table course_id row). cbn [fst].
  destruct (Models.calculate_progress _ _) as [[saved pct]|] eqn:Hcalc.
  - split; [right; reflexivity |].
    intros saved' [= <-] _ Hbefore Hpct. cbn [fst snd] in *.
    destruct (calculate_progress_below_100 _ _ _ _ Hcalc) as [Heq Hkeep].
    rewrite Hkeep by congruence.
    cbn [Models.is_completed]. destruct (negb (bool_decide _)); exact Hbefore.
  - split; [left; reflexivity |]. intros saved _ Hne. contradiction.
Qed.

Lemma final_item_reports_completion_witness :
  let out := complete_item sample_table 1 1000 738000 (Some 3%nat) (None, None) in
  fst out = Some (CourseCompleted 100 true) /\
  (exists saved, fst (snd out) = Some saved /\
                 Models.completion_percentage saved = 33 /\
                 Models.is_completed saved = false).
Proof.
  intros out.
  destruct (proj1 (final_item_reports_completion sample_table 1 1000 738000 2
                     (mkCourseItem 3 1 "video" 5) (None, None) eq_refl eq_refl))
    as [Hnone | Hdone].
  - vm_compute in Hnone. discriminate Hnone.
  - split; [exact Hdone |]. eexists. split; [vm_compute; reflexivity |].
    split; reflexivity.
Defined.

(** X25: the endpoint never takes anything back: the items completed
    before stay completed, a course that was completed stays completed
    with its completion date, and XP does not go down. *)
Theorem complete_item_only_adds (table : list CourseItem) (course_id : nat)
    (now today : Z) (requested : option nat)
    (before : Models.UserCourseProgress) (ledger : option Models.UserProgress) :
  let out := complete_item table course_id now today requested (Some before, ledger) in
  (exists after, fst (snd out) = Some after /\
     Models.completed_items before ⊆ Models.completed_items after /\
     (Models.is_completed before = true ->
      Models.is_completed after = true /\
      Models.completed_at after = Models.completed_at before)) /\
  Models.xp (Views.get_or_create ledger)
  <= Models.xp (Views.get_or_create (snd (snd out))).
Proof.
  intros out. subst out.
  destruct requested as [[|wanted]|];
    try (split; [exists before; repeat split; [reflexivity | assumption] | cbn; lia]).
  destruct (find_item table course_id (S wanted)) as [item|] eqn:Hfind.
  2: { unfold complete_item. rewrite Hfind.
       split; [exists before; repeat split; [reflexivity | assumption] | cbn; lia]. }
  split.
  - unfold complete_item. rewrite Hfind.
    destruct (bool_decide _); cbn [negb];
      (destruct (Models.calculate_progress _ _) as [[saved pct]|] eqn:Hcalc;
       [pose proof (calculate_progress_frame _ _ _ _ Hcalc) as (Hitems & _);
        cbn [Models.completed_items] in Hitems;
        destruct (get_next_item table item) | ]);
      eexists; (split; [reflexivity |]);
      cbn [Models.completed_items Models.is_completed Models.completed_at];
      (split; [try rewrite Hitems;
               first [reflexivity | apply union_subseteq_r] |]); intros Hdone;
      try (pose proof (fun H => CourseProofs.calculate_progress_keeps_latch
                                  _ _ _ _ H Hcalc) as Hlatch;
           exact (Hlatch Hdone));
      (split; [exact Hdone | reflexivity]).
  - rewrite (complete_item_ledger table course_id now today wanted item
               (Some before) ledger Hfind).
    destruct (bool_decide _); [lia |].
    cbn [Views.get_or_create Models.check_streak Models.xp Models.add_xp fst].
    unfold item_xp. destruct (String.eqb _ _); lia.
Qed.

Lemma complete_item_only_adds_witness :
  let done :=
    Models.mkUserCourseProgress (course_row sample_table 2) None {[4%nat]}
                                true true 100 (Some 10) (Some 20) in
  exists after,
    fst (snd (complete_item sample_table 2 1000 738000 (Some 4%nat) (Some done, None)))
    = Some after /\
    Models.is_completed after = true /\ Models.completed_at after = Some 20.
Proof.
  intros done.
  destruct (proj1 (complete_item_only_adds sample_table 2 1000 738000 (Some 4%nat)
                     done None)) as (after & Hafter & _ & Hlatch).
  exists after. split; [exact Hafter | exact (Hlatch eq_refl)].
Defined.

End CourseExtras.

(* ===================================================================== *)
(** * More on the similarity fallback *)
(* ===================================================================== *)

Module SimilarityExtras.
Import PyStr GeminiService.

Lemma count_equal_le_min (s t : string) :
  count_equal s t <= Nat.min (len s) (len t).
Proof.
  pose proof (SimilarityProofs.count_equal_le_l s t).
  pose proof (SimilarityProofs.count_equal_le_l t s) as Ht.
  rewrite (SimilarityProofs.count_equal_sym t s) in Ht. lia.
Qed.

(** X26: the fallback accepts the reference itself, and any submission
    that differs from it in whitespace and letter case only, as soon as
    it has 10 characters that are not whitespace; the similarity it
    reports is then 1. *)
Theorem fallback_accepts_reference (submitted_code solution_code : string) :
  lower (remove_spaces submitted_code) = lower (remove_spaces solution_code) ->
  10 <= len (lower (remove_spaces submitted_code)) ->
  is_correct (_basic_validation submitted_code solution_code) = true /\
  exists q, reasoning (_basic_validation submitted_code solution_code) = Similarity q /\
            (q == 1)%Q.
Proof.
  intros Hsame Hlen. unfold _basic_validation.
  rewrite !SimilarityProofs.clean_spec, <- Hsame.
  set (c := lower (remove_spaces submitted_code)) in *.
  rewrite (proj2 (Nat.ltb_ge _ _) Hlen).
  assert (Hone : (_calculate_similarity c c == 1)%Q).
  { unfold _calculate_similarity.
    destruct c as [|a c'] eqn:Hc; [cbn in Hlen; lia |]. rewrite <- Hc in *.
    replace (truthy c) with true by (rewrite Hc; reflexivity). cbn [negb orb].
    rewrite SimilarityProofs.count_equal_refl, Nat.max_id.
    rewrite (proj2 (Nat.ltb_lt 0 (len c))) by lia.
    assert (Hne : ~ (inject_Z (Z.of_nat (len c)) == 0)%Q).
    { change 0%Q with (inject_Z 0). rewrite inject_Z_injective. lia. }
    unfold Qdiv. apply (Qmult_inv_r _ Hne). }
  assert (Hgt : Qgtb (_calculate_similarity c c) (7 # 10) = true).
  { apply SimilarityProofs.Qgtb_lt. rewrite Hone. reflexivity. }
  rewrite Hgt. cbn. split; [reflexivity |].
  eexists. split; [reflexivity | exact Hone].
Qed.

Lemma fallback_accepts_reference_witness :
  is_correct (_basic_validation "PRINT ( 'hello world' )" "print('hello world')") = true.
Proof.
  apply (proj1 (fallback_accepts_reference
                  "PRINT ( 'hello world' )" "print('hello world')"
                  ltac:(vm_compute; reflexivity) ltac:(vm_compute; lia))).
Defined.

(** X27: the fallback rejects every submission whose length, whitespace
    removed, is too far from the reference's: when ten times the shorter
    of the two lengths is at most seven times the longer, the similarity
    cannot exceed 0.7.  An empty reference therefore accepts nothing. *)
Theorem fallback_rejects_length_mismatch (submitted_code solution_code : string) :
  10 * Nat.min (len (clean submitted_code)) (len (clean solution_code))
  <= 7 * Nat.max (len (clean submitted_code)) (len (clean solution_code)) ->
  is_correct (_basic_validation submitted_code solution_code) = false.
Proof.
  intros Hlen. unfold _basic_validation.
  set (s := clean submitted_code) in *. set (r := clean solution_code) in *.
  destruct (len s <? 10)%nat; [reflexivity |].
  destruct (Qgtb (_calculate_similarity s r) (7 # 10)) eqn:Hgt; [| reflexivity].
  exfalso. apply SimilarityProofs.Qgtb_lt in Hgt. revert Hgt.
  unfold _calculate_similarity.
  destruct (negb (truthy s) || negb (truthy r)); [discriminate |].
  destruct (Nat.ltb_spec 0 (Nat.max (len s) (len r))) as [Hpos | _]; [| discriminate].
  intros Hgt. apply Qlt_not_le in Hgt. apply Hgt.
  apply Qle_shift_div_r.
  - change 0%Q with (inject_Z 0). rewrite <- Zlt_Qlt. lia.
  - pose proof (count_equal_le_min s r) as Hc.
    unfold Qle. cbn. lia.
Qed.

Lemma fallback_rejects_length_mismatch_witness :
  is_correct (_basic_validation "print('hello world')" EmptyString) = false.
Proof.
  apply fallback_rejects_length_mismatch. vm_compute. lia.
Defined.

End SimilarityExtras.
